(** * Block-Poly-SNN: neuron layers ([block/nn/layers.py])

    A shallow embedding of the neuron-layer classes [BaseNeurons],
    [LinearNeurons], [ConvNeurons], [PolyNeurons] and [PolyConvNeurons],
    and the properties of their construction, of the leak clamp, of the
    hyper-parameter snapshot and of the tensor layout handling in
    [forward].

    Numbers: tensor entries are rationals [Q]; the embedded code only
    compares, adds and multiplies them, so no rounding is involved in any
    statement below.

    Tensors: a shape and the entries in row-major (logical) order, which
    is the order [flatten] and [view] preserve and [permute] rearranges. *)

From Stdlib Require Import QArith Qminmax Lia Arith.
From stdpp Require Import base gmap strings list fin_maps.

Local Open Scope nat_scope.

(** ** Python exceptions and results *)

Inductive exn : Type :=
  | NotImplementedError
  | TypeError
  | ValueError
  | IndexError
  | RuntimeError
  | AttributeError
  | ZeroDivisionError.

Inductive result (A : Type) : Type :=
  | Ok (a : A)
  | Raise (e : exn).
Arguments Ok {A} a.
Arguments Raise {A} e.

Definition rbind {A B : Type} (r : result A) (k : A -> result B) : result B :=
  match r with
  | Ok a => k a
  | Raise e => Raise e
  end.

#[global] Instance result_ret : MRet result := @Ok.
#[global] Instance result_bind : MBind result := fun A B k r => rbind r k.

(** ** Tensors *)

Module Tensor.

Record t : Type := mk { shape : list nat; data : list Q }.

(** Number of entries of a shape. *)
Definition numel (s : list nat) : nat := fold_right Nat.mul 1 s.

(** Row-major offset of a multi-index. *)
Fixpoint ravel (s idx : list nat) : nat :=
  match s, idx with
  | _ :: s', i :: idx' => i * numel s' + ravel s' idx'
  | _, _ => 0
  end.

(** Multi-index of a row-major offset. *)
Fixpoint unravel (s : list nat) (k : nat) : list nat :=
  match s with
  | [] => []
  | _ :: s' => (k / numel s') :: unravel s' (k mod numel s')
  end.

(** [idx] is a valid multi-index for shape [s]. *)
Definition valid (s idx : list nat) : Prop := Forall2 lt idx s.

(** The entries fill the shape. *)
Definition wf (x : t) : Prop := length (data x) = numel (shape x).

Definition get (x : t) (idx : list nat) : Q :=
  nth (ravel (shape x) idx) (data x) 0%Q.

(** The tensor of shape [s] whose entry at [idx] is [f idx]. *)
Definition tabulate (s : list nat) (f : list nat -> Q) : t :=
  mk s (map (fun k => f (unravel s k)) (seq 0 (numel s))).

(** Position of axis [j] in the list [dims]. *)
Fixpoint index_of (j : nat) (dims : list nat) : nat :=
  match dims with
  | [] => 0
  | d :: dims' => if Nat.eqb d j then 0 else S (index_of j dims')
  end.

(** [dims] lists every axis [0 .. n-1] once. *)
Definition is_perm (n : nat) (dims : list nat) : bool :=
  Nat.eqb (length dims) n
  && forallb (fun j => existsb (Nat.eqb j) dims) (seq 0 n).

(** Source index read by the permuted tensor at [idx']: axis [j] of the
    source is axis [index_of j dims] of the result. *)
Definition perm_src (dims idx' : list nat) : list nat :=
  map (fun j => nth (index_of j dims) idx' 0) (seq 0 (length dims)).

(** [x.permute(dims)]: result axis [k] is source axis [dims[k]]. *)
Definition permute (dims : list nat) (x : t) : result t :=
  if is_perm (length (shape x)) dims then
    Ok (tabulate (map (fun d => nth d (shape x) 0) dims)
                 (fun idx' => get x (perm_src dims idx')))
  else Raise RuntimeError.

(** [x.flatten(start_dim, end_dim)]: the axes [start_dim .. end_dim] are
    merged into one; the row-major order of the entries is kept. *)
Definition flatten (start_dim end_dim : nat) (x : t) : result t :=
  let s := shape x in
  if (start_dim <=? end_dim) && (end_dim <? length s) then
    Ok (mk (firstn start_dim s
              ++ numel (firstn (S end_dim - start_dim) (skipn start_dim s))
              :: skipn (S end_dim) s)
           (data x))
  else Raise IndexError.

(** [x.view(s)]: same entries in the same order under a new shape. *)
Definition view (s : list nat) (x : t) : result t :=
  if Nat.eqb (numel s) (numel (shape x)) then Ok (mk s (data x))
  else Raise RuntimeError.

(** Elementwise [x + c] for a Python number [c]. *)
Definition add_scalar (x : t) (c : Q) : t :=
  mk (shape x) (map (fun a => (a + c)%Q) (data x)).

(** [c + x] for a Python number [c]. *)
Definition radd_scalar (c : Q) (x : t) : t :=
  mk (shape x) (map (fun a => (c + a)%Q) (data x)).

Fixpoint zip_mul (l1 l2 : list Q) : list Q :=
  match l1, l2 with
  | a :: l1', b :: l2' => (a * b)%Q :: zip_mul l1' l2'
  | _, _ => []
  end.

(** Elementwise [x * y] of two tensors of one shape. *)
Definition mul (x y : t) : result t :=
  if decide (shape x = shape y) then Ok (mk (shape x) (zip_mul (data x) (data y)))
  else Raise RuntimeError.

(** [torch.clamp(x, min=lo, max=hi)]: entrywise [min(max(x, lo), hi)]. *)
Definition clamp_entry (lo hi a : Q) : Q := Qmin (Qmax a lo) hi.

Definition clamp (lo hi : Q) (x : t) : t :=
  mk (shape x) (map (clamp_entry lo hi) (data x)).

(** [torch.Tensor(values)] for a flat list of numbers. *)
Definition of_list (values : list Q) : t := mk [length values] values.

End Tensor.

(** ** Python values

    The values that occur as keyword arguments and in hyper-parameter
    dictionaries. *)

#[warnings="-register-all"]
Inductive pyval : Type :=
  | PNone
  | PBool (b : bool)
  | PInt (z : Z)
  | PFloat (q : Q)
  | PStr (s : string)
  | PList (l : list pyval).

(** Truth value of a Python object, as tested by [if] and [not]. *)
Definition truthy (v : pyval) : bool :=
  match v with
  | PNone => false
  | PBool b => b
  | PInt z => negb (Z.eqb z 0)
  | PFloat q => negb (Qeq_bool q 0)
  | PStr s => negb (String.eqb s "")
  | PList l => match l with [] => false | _ => true end
  end.

(** [kwargs.get(key, default)]. *)
Definition kwargs_get (kwargs : gmap string pyval) (key : string) (dflt : pyval) : pyval :=
  default dflt (kwargs !! key).

(** ** State of a layer object during a method call

    A method body runs against the object's attributes: it yields a value
    or raises, and leaves the attributes in some state. *)

Definition M (S A : Type) : Type := S -> result A * S.

Definition st_ret {S A : Type} (a : A) : M S A := fun s => (Ok a, s).

Definition st_bind {S A B : Type} (m : M S A) (k : A -> M S B) : M S B :=
  fun s => match m s with
           | (Ok a, s') => k a s'
           | (Raise e, s') => (Raise e, s')
           end.

(** Read an attribute (or a property computed from attributes). *)
Definition attr {S A : Type} (f : S -> A) : M S A := fun s => (Ok (f s), s).

(** Run a computation that does not involve the object. *)
Definition lift {S A : Type} (r : result A) : M S A := fun s => (r, s).

(** Run a method of the base class on the base-class part of the object. *)
Definition zoom {S B A : Type} (proj : S -> B) (upd : B -> S -> S) (m : M B A) : M S A :=
  fun s => let '(r, b') := m (proj s) in (r, upd b' s).

#[global] Instance M_ret {S : Type} : MRet (M S) := @st_ret S.
#[global] Instance M_bind {S : Type} : MBind (M S) := fun A B k m => st_bind m k.

(** ** Collaborators of the layers *)

(** A spike function object: what [__class__.__name__] gives for it, and
    its action on a potential and a scale. *)
Record SpikeFunc : Type := {
  sf_class_name : string;
  sf_apply : Q -> Q -> Q;
}.

(** [nn.Parameter(data, requires_grad)]. *)
Record NnParameter : Type := {
  p_data : Tensor.t;
  requires_grad : bool;
}.

(** [nn.Linear]: an affine map on the last axis. [weight] has shape
    [out_features x in_features], [bias] has shape [out_features]. *)
Module Linear.

Record t : Type := mk {
  in_features : nat;
  out_features : nat;
  weight : Tensor.t;
  bias : Tensor.t;
}.

(** [sum_over n f] is [f 0 + f 1 + ... + f (n-1)]. *)
Definition sum_over (n : nat) (f : nat -> Q) : Q :=
  fold_right Qplus 0%Q (map f (seq 0 n)).

(** Entry of the image at [idx]: the leading indices select a row of the
    input, the final index an output feature. *)
Definition entry (l : t) (x : Tensor.t) (idx : list nat) : Q :=
  let pre := removelast idx in
  let o := List.last idx 0 in
  Qplus
    (sum_over (in_features l)
       (fun i => Qmult (Tensor.get x (pre ++ [i])) (Tensor.get (weight l) [o; i])))
    (Tensor.get (bias l) [o]).

Definition call (l : t) (x : Tensor.t) : result Tensor.t :=
  match last (Tensor.shape x) with
  | Some d =>
      if Nat.eqb d (in_features l) then
        Ok (Tensor.tabulate (removelast (Tensor.shape x) ++ [out_features l]) (entry l x))
      else Raise RuntimeError
  | None => Raise RuntimeError
  end.

End Linear.

(** [nn.Conv3d(n_in, n_out, (1, k, k), (1, s, s))] on an input of shape
    [batch x n_in x time x height x width] or, without the batch axis,
    [n_in x time x height x width]. [weight] has shape
    [n_out x n_in x 1 x k x k], [bias] has shape [n_out]. *)
Module Conv3d.

Record t : Type := mk {
  in_channels : nat;
  out_channels : nat;
  kernel : nat;
  stride : nat;
  weight : Tensor.t;
  bias : Tensor.t;
}.

Definition out_size (n k s : nat) : nat := (n - k) / s + 1.

(** The output at channel [o], time [tm], row [i] and column [j], the
    input being read through [at_ ci tm row col]. *)
Definition window (c : t) (at_ : nat -> nat -> nat -> nat -> Q) (o tm i j : nat) : Q :=
  Qplus
    (Linear.sum_over (in_channels c) (fun ci =>
       Linear.sum_over (kernel c) (fun di =>
         Linear.sum_over (kernel c) (fun dj =>
           Qmult (Tensor.get (weight c) [o; ci; 0; di; dj])
                 (at_ ci tm (i * stride c + di) (j * stride c + dj))))))
    (Tensor.get (bias c) [o]).

Definition entry (c : t) (x : Tensor.t) (idx : list nat) : Q :=
  match idx with
  | [b; o; tm; i; j] =>
      window c (fun ci tm' row col => Tensor.get x [b; ci; tm'; row; col]) o tm i j
  | [o; tm; i; j] =>
      window c (fun ci tm' row col => Tensor.get x [ci; tm'; row; col]) o tm i j
  | _ => 0%Q
  end.

(** The sizes a convolution accepts: the channels of the layer, at least
    one timestep and a window that fits. *)
Definition fits (c : t) (ci tm h w : nat) : bool :=
  Nat.eqb ci (in_channels c) && (1 <=? tm) && (kernel c <=? h) && (kernel c <=? w)
  && (1 <=? stride c) && (1 <=? kernel c).

Definition call (c : t) (x : Tensor.t) : result Tensor.t :=
  match Tensor.shape x with
  | [b; ci; tm; h; w] =>
      if fits c ci tm h w
      then Ok (Tensor.tabulate
                 [b; out_channels c; tm;
                  out_size h (kernel c) (stride c); out_size w (kernel c) (stride c)]
                 (entry c x))
      else Raise RuntimeError
  | [ci; tm; h; w] =>
      if fits c ci tm h w
      then Ok (Tensor.tabulate
                 [out_channels c; tm;
                  out_size h (kernel c) (stride c); out_size w (kernel c) (stride c)]
                 (entry c x))
      else Raise RuntimeError
  | _ => Raise RuntimeError
  end.

End Conv3d.

(** ** Integration strategies ([block.nn.methods]) *)

Definition METHOD_STANDARD : string := "standard".
Definition METHOD_FAST_NAIVE : string := "fast_naive".
Definition METHOD_FAST_OPTIMISED : string := "fast_optimised".

(** The layer classes of [layers.py]. *)
Inductive class : Type :=
  | CBaseNeurons
  | CLinearNeurons
  | CConvNeurons
  | CPolyNeurons
  | CPolyConvNeurons.

(** Method resolution order, up to [BBModel]. *)
Definition mro (c : class) : list class :=
  match c with
  | CBaseNeurons => [CBaseNeurons]
  | _ => [c; CBaseNeurons]
  end.

(** First definition of a method along a resolution order. *)
Fixpoint resolve {A : Type} (defs : class -> option A) (order : list class) : option A :=
  match order with
  | [] => None
  | c :: order' =>
      match defs c with
      | Some f => Some f
      | None => resolve defs order'
      end
  end.

(** A source of recurrent current: a callable taking the spikes. *)
Definition RecurrentSource : Type := Tensor.t -> result Tensor.t.

(** The classes that define [get_recurrent_current] in their own body:
    [BaseNeurons] does; in [LinearNeurons] and [PolyNeurons] the
    definition is commented out. *)
Definition defines_get_recurrent_current (c : class) : option RecurrentSource :=
  match c with
  | CBaseNeurons => Some (fun _ => Raise NotImplementedError)
  | CLinearNeurons => None
  | CConvNeurons => None
  | CPolyNeurons => None
  | CPolyConvNeurons => None
  end.

(** [self.get_recurrent_current] for an object of class [c]. *)
Definition get_recurrent_current (c : class) : RecurrentSource :=
  default (fun _ => Raise AttributeError)
          (resolve defines_get_recurrent_current (mro c)).

(** Modelled from the spec: the strategy classes of [block.nn.methods],
    which is not part of the sources at hand. A strategy object is the
    record of the arguments its constructor received ("receives β at
    construction (bound once, not per forward call)"); calling it is a
    function of the current trace, the leak coefficient, the optional
    initial potential and the return type ("pure function of inputs plus
    learnable parameters"). *)
Inductive MethodFunc : Type :=
  | MethodStandard (t_len : Z) (spike_func : SpikeFunc) (scale : Q)
      (single_spike integrator : pyval) (recurrent_source : option RecurrentSource)
  | MethodFastNaive (t_len : Z) (spike_func : SpikeFunc) (scale : Q) (beta : Tensor.t).

Class Methods : Type := {
  method_call : MethodFunc -> Tensor.t -> Tensor.t -> option Tensor.t -> pyval
                -> result Tensor.t;
}.

(** ** [BaseNeurons] *)

Module BaseNeurons.

(** The attributes of an instance; [cls] is the class of the object. *)
Record t : Type := mk {
  cls : class;
  _method : string;
  _t_len : Z;
  _beta_init : list Q;
  _beta_requires_grad : bool;
  _spike_func : SpikeFunc;
  _scale : Q;
  _beta : NnParameter;
  _method_func : option MethodFunc;
}.

Definition set_method_func (f : option MethodFunc) (self : t) : t :=
  mk (cls self) (_method self) (_t_len self) (_beta_init self)
     (_beta_requires_grad self) (_spike_func self) (_scale self) (_beta self) f.

(** What an optimizer step does to the object: new entries for the leak
    parameter, everything else as it was. *)
Definition set_beta_data (d : Tensor.t) (self : t) : t :=
  mk (cls self) (_method self) (_t_len self) (_beta_init self)
     (_beta_requires_grad self) (_spike_func self) (_scale self)
     {| p_data := d; requires_grad := requires_grad (_beta self) |}
     (_method_func self).

(** Property [beta]. *)
Definition beta : M t Tensor.t :=
  b ← attr _beta;
  mret (Tensor.clamp 0 1 (p_data b)).

Definition _get_method_func (t_len : Z) (kwargs : gmap string pyval)
  : M t (option MethodFunc) :=
  m ← attr _method;
  if String.eqb m METHOD_STANDARD then
    c ← attr cls;
    let recurrent_source :=
      if truthy (kwargs_get kwargs "recurrent" (PBool false))
      then Some (get_recurrent_current c) else None in
    sf ← attr _spike_func;
    sc ← attr _scale;
    mret (Some (MethodStandard t_len sf sc
                  (kwargs_get kwargs "single_spike" (PBool false))
                  (kwargs_get kwargs "integrator" (PBool false))
                  recurrent_source))
  else if String.eqb m METHOD_FAST_NAIVE then
    sf ← attr _spike_func;
    sc ← attr _scale;
    b ← beta;
    mret (Some (MethodFastNaive t_len sf sc b))
  else if String.eqb m METHOD_FAST_OPTIMISED then
    lift (Raise NotImplementedError)
  else mret None.

(** [__init__], run for a new object of class [c]. *)
Definition __init__ (c : class) (method : string) (t_len : Z) (beta_init : list Q)
    (beta_requires_grad : bool) (spike_func : SpikeFunc) (scale : Q)
    (kwargs : gmap string pyval) : result t :=
  let self :=
    mk c method t_len beta_init beta_requires_grad spike_func scale
       {| p_data := Tensor.of_list beta_init; requires_grad := beta_requires_grad |}
       None in
  match _get_method_func t_len kwargs self with
  | (Ok f, self') => Ok (set_method_func f self')
  | (Raise e, _) => Raise e
  end.

(** Property [hyperparams]; [super_hyperparams] is the dictionary that
    [BBModel.hyperparams] gives for the object. *)
Definition hyperparams (super_hyperparams : gmap string pyval) : M t (gmap string pyval) :=
  m ← attr _method;
  tl ← attr _t_len;
  bi ← attr _beta_init;
  rg ← attr _beta_requires_grad;
  sf ← attr _spike_func;
  mret (<["spike_func" := PStr (sf_class_name sf)]>
        (<["beta_requires_grad" := PBool rg]>
         (<["beta_init" := PList (map PFloat bi)]>
          (<["t_len" := PInt tl]>
           (<["method" := PStr m]> super_hyperparams))))).

Definition forward `{Methods} (x : Tensor.t) (v_init : option Tensor.t)
    (return_type : pyval) : M t Tensor.t :=
  f ← attr _method_func;
  b ← beta;
  match f with
  | Some mf => lift (method_call mf x b v_init return_type)
  | None => lift (Raise TypeError)
  end.

End BaseNeurons.

(** ** The layer classes with a current transform

    A constructor builds its [torch] modules and has [init_weight] draw
    their weights and set their biases to zero. The values drawn are an
    argument of [__init__] here, one tensor for each weight. The bounds
    of a uniform draw are computed from [1 / n_in], which raises for a
    zero divisor. *)

(** [torch] bias of [n] entries after [init_weight(bias, "constant", c=0)]. *)
Definition zero_bias (n : nat) : Tensor.t := Tensor.tabulate [n] (fun _ => 0%Q).

(** The bounds [-np.sqrt(1 / n_in)] and [np.sqrt(1 / n_in)] of the uniform
    draw: the division comes first. *)
Definition uniform_bounds (n_in : nat) : result unit :=
  if Nat.eqb n_in 0 then Raise ZeroDivisionError else Ok tt.

(** The weight initialisation of the convolutional layers: with [sc] not
    [None] a uniform draw with bounds [-sc*np.sqrt(1 / n_in)] and
    [sc*np.sqrt(1 / n_in)] for [n_in = kernel * kernel * n_in], the
    negation [-sc] coming first; with [sc] [None] a Glorot draw. *)
Definition conv_bounds (sc : pyval) (n_in kernel : nat) : result unit :=
  match sc with
  | PNone => Ok tt
  | PBool _ | PInt _ | PFloat _ => uniform_bounds (kernel * kernel * n_in)
  | PStr _ | PList _ => Raise TypeError
  end.

(** [b, n, t, h, w = current.shape] *)
Definition unpack5 (s : list nat) : result (nat * nat * nat * nat * nat) :=
  match s with
  | [b; n; t; h; w] => Ok (b, n, t, h, w)
  | _ => Raise ValueError
  end.

Module LinearNeurons.

Record t : Type := mk {
  base : BaseNeurons.t;
  _n_in : nat;
  _n_out : nat;
  _to_current : Linear.t;
}.

Definition set_base (b : BaseNeurons.t) (self : t) : t :=
  mk b (_n_in self) (_n_out self) (_to_current self).

(** [super()]: a [BaseNeurons] method run on this object. *)
Definition super {A : Type} (m : M BaseNeurons.t A) : M t A := zoom base set_base m.

Definition __init__ (n_in n_out : nat) (method : string) (t_len : Z)
    (beta_init : list Q) (beta_requires_grad : bool) (spike_func : SpikeFunc)
    (scale : Q) (kwargs : gmap string pyval) (weight : Tensor.t) : result t :=
  b ← BaseNeurons.__init__ CLinearNeurons method t_len beta_init beta_requires_grad
        spike_func scale kwargs;
  let to_current := Linear.mk n_in n_out weight (zero_bias n_out) in
  _ ← uniform_bounds n_in;
  mret (mk b n_in n_out to_current).

Definition hyperparams (super_hyperparams : gmap string pyval) : M t (gmap string pyval) :=
  hp ← super (BaseNeurons.hyperparams super_hyperparams);
  ni ← attr _n_in;
  no ← attr _n_out;
  mret (<["n_out" := PInt (Z.of_nat no)]> (<["n_in" := PInt (Z.of_nat ni)]> hp)).

Definition forward `{Methods} (x : Tensor.t) (v_init : option Tensor.t)
    (return_type : pyval) : M t Tensor.t :=
  x ← lift (Tensor.permute [0; 2; 1] x);
  tc ← attr _to_current;
  current ← lift (Linear.call tc x);
  current ← lift (Tensor.permute [0; 2; 1] current);
  spikes ← super (BaseNeurons.forward current v_init return_type);
  mret spikes.

End LinearNeurons.

Module ConvNeurons.

Record t : Type := mk {
  base : BaseNeurons.t;
  _n_in : nat;
  _n_out : nat;
  _kernel : nat;
  _stride : nat;
  _flatten : pyval;
  _to_current : Conv3d.t;
}.

Definition set_base (b : BaseNeurons.t) (self : t) : t :=
  mk b (_n_in self) (_n_out self) (_kernel self) (_stride self) (_flatten self)
     (_to_current self).

Definition super {A : Type} (m : M BaseNeurons.t A) : M t A := zoom base set_base m.

Definition __init__ (n_in n_out kernel stride : nat) (method : string) (t_len : Z)
    (beta_init : list Q) (beta_requires_grad : bool) (spike_func : SpikeFunc)
    (scale : Q) (kwargs : gmap string pyval) (weight : Tensor.t) : result t :=
  b ← BaseNeurons.__init__ CConvNeurons method t_len beta_init beta_requires_grad
        spike_func scale kwargs;
  let flatten := kwargs_get kwargs "flatten" (PBool false) in
  let to_current := Conv3d.mk n_in n_out kernel stride weight (zero_bias n_out) in
  let sc := kwargs_get kwargs "sc" (PInt 1) in
  _ ← conv_bounds sc n_in kernel;
  mret (mk b n_in n_out kernel stride flatten to_current).

Definition hyperparams (super_hyperparams : gmap string pyval) : M t (gmap string pyval) :=
  hp ← super (BaseNeurons.hyperparams super_hyperparams);
  ni ← attr _n_in;
  no ← attr _n_out;
  k ← attr _kernel;
  s ← attr _stride;
  mret (<["stride" := PInt (Z.of_nat s)]>
        (<["kernel" := PInt (Z.of_nat k)]>
         (<["n_out" := PInt (Z.of_nat no)]>
          (<["n_in" := PInt (Z.of_nat ni)]> hp)))).

Definition forward `{Methods} (x : Tensor.t) (v_init : option Tensor.t)
    (return_type : pyval) : M t Tensor.t :=
  tc ← attr _to_current;
  current ← lift (Conv3d.call tc x);
  '(b, n, t, h, w) ← lift (unpack5 (Tensor.shape current));
  current ← lift (Tensor.permute [0; 1; 3; 4; 2] current);
  current ← lift (Tensor.flatten 1 3 current);
  spikes ← super (BaseNeurons.forward current v_init return_type);
  fl ← attr _flatten;
  if negb (truthy fl) then
    spikes ← lift (Tensor.view [b; n; h; w; t] spikes);
    spikes ← lift (Tensor.permute [0; 1; 4; 2; 3] spikes);
    mret spikes
  else mret spikes.

End ConvNeurons.

Module PolyNeurons.

Record t : Type := mk {
  base : BaseNeurons.t;
  _n_in : nat;
  _n_out : nat;
  fc1 : Linear.t;
  fc2 : Linear.t;
}.

Definition set_base (b : BaseNeurons.t) (self : t) : t :=
  mk b (_n_in self) (_n_out self) (fc1 self) (fc2 self).

Definition super {A : Type} (m : M BaseNeurons.t A) : M t A := zoom base set_base m.

Definition __init__ (n_in n_out : nat) (method : string) (t_len : Z)
    (beta_init : list Q) (beta_requires_grad : bool) (spike_func : SpikeFunc)
    (scale : Q) (kwargs : gmap string pyval) (weight_1 weight_2 : Tensor.t)
  : result t :=
  b ← BaseNeurons.__init__ CPolyNeurons method t_len beta_init beta_requires_grad
        spike_func scale kwargs;
  let fc1 := Linear.mk n_in n_out weight_1 (zero_bias n_out) in
  let fc2 := Linear.mk n_in n_out weight_2 (zero_bias n_out) in
  _ ← uniform_bounds n_in;
  _ ← uniform_bounds n_in;
  mret (mk b n_in n_out fc1 fc2).

Definition hyperparams (super_hyperparams : gmap string pyval) : M t (gmap string pyval) :=
  hp ← super (BaseNeurons.hyperparams super_hyperparams);
  ni ← attr _n_in;
  no ← attr _n_out;
  mret (<["n_out" := PInt (Z.of_nat no)]> (<["n_in" := PInt (Z.of_nat ni)]> hp)).

Definition _to_current (x : Tensor.t) : M t Tensor.t :=
  f2 ← attr fc2;
  a ← lift (Linear.call f2 x);
  f1 ← attr fc1;
  b ← lift (Linear.call f1 x);
  lift (Tensor.mul (Tensor.add_scalar a 1) b).

Definition forward `{Methods} (x : Tensor.t) (v_init : option Tensor.t)
    (return_type : pyval) : M t Tensor.t :=
  x ← lift (Tensor.permute [0; 2; 1] x);
  current ← _to_current x;
  current ← lift (Tensor.permute [0; 2; 1] current);
  spikes ← super (BaseNeurons.forward current v_init return_type);
  mret spikes.

End PolyNeurons.

Module PolyConvNeurons.

Record t : Type := mk {
  base : BaseNeurons.t;
  _n_in : nat;
  _n_out : nat;
  _kernel : nat;
  _stride : nat;
  _flatten : pyval;
  conv_1 : Conv3d.t;
  conv_2 : Conv3d.t;
}.

Definition set_base (b : BaseNeurons.t) (self : t) : t :=
  mk b (_n_in self) (_n_out self) (_kernel self) (_stride self) (_flatten self)
     (conv_1 self) (conv_2 self).

Definition super {A : Type} (m : M BaseNeurons.t A) : M t A := zoom base set_base m.

Definition __init__ (n_in n_out kernel stride : nat) (method : string) (t_len : Z)
    (beta_init : list Q) (beta_requires_grad : bool) (spike_func : SpikeFunc)
    (scale : Q) (kwargs : gmap string pyval) (weight_1 weight_2 : Tensor.t)
  : result t :=
  b ← BaseNeurons.__init__ CPolyConvNeurons method t_len beta_init beta_requires_grad
        spike_func scale kwargs;
  let flatten := kwargs_get kwargs "flatten" (PBool false) in
  let conv_1 := Conv3d.mk n_in n_out kernel stride weight_1 (zero_bias n_out) in
  let conv_2 := Conv3d.mk n_in n_out kernel stride weight_2 (zero_bias n_out) in
  let sc := kwargs_get kwargs "sc" (PInt 1) in
  _ ← conv_bounds sc n_in kernel;
  _ ← conv_bounds sc n_in kernel;
  mret (mk b n_in n_out kernel stride flatten conv_1 conv_2).

Definition hyperparams (super_hyperparams : gmap string pyval) : M t (gmap string pyval) :=
  hp ← super (BaseNeurons.hyperparams super_hyperparams);
  ni ← attr _n_in;
  no ← attr _n_out;
  k ← attr _kernel;
  s ← attr _stride;
  mret (<["stride" := PInt (Z.of_nat s)]>
        (<["kernel" := PInt (Z.of_nat k)]>
         (<["n_out" := PInt (Z.of_nat no)]>
          (<["n_in" := PInt (Z.of_nat ni)]> hp)))).

(** [lambda x: self.conv_1(x) * (1 + self.conv_2(x))] *)
Definition _to_current (x : Tensor.t) : M t Tensor.t :=
  c1 ← attr conv_1;
  a ← lift (Conv3d.call c1 x);
  c2 ← attr conv_2;
  b ← lift (Conv3d.call c2 x);
  lift (Tensor.mul a (Tensor.radd_scalar 1 b)).

Definition forward `{Methods} (x : Tensor.t) (v_init : option Tensor.t)
    (return_type : pyval) : M t Tensor.t :=
  current ← _to_current x;
  '(b, n, t, h, w) ← lift (unpack5 (Tensor.shape current));
  current ← lift (Tensor.permute [0; 1; 3; 4; 2] current);
  current ← lift (Tensor.flatten 1 3 current);
  spikes ← super (BaseNeurons.forward current v_init return_type);
  fl ← attr _flatten;
  if negb (truthy fl) then
    spikes ← lift (Tensor.view [b; n; h; w; t] spikes);
    spikes ← lift (Tensor.permute [0; 1; 4; 2; 3] spikes);
    mret spikes
  else mret spikes.

End PolyConvNeurons.

(** ** A reference instance of the strategies *)

Module Reference.

(** Modelled from the spec: the forward rule of the surrogate spike
    function (§4.1), [spike = 1 if u >= 0 else 0]; [block.nn.surrogate]
    is not part of the sources at hand. The object is a plain function,
    so its class is [function]. *)
Definition heaviside : SpikeFunc :=
  {| sf_class_name := "function";
     sf_apply := fun u _ => if Qle_bool 0 u then 1%Q else 0%Q |}.

Record neuron : Type := { potential : Q; fired : bool }.

(** Modelled from the spec: one timestep of §4.2 for one neuron, with
    firing threshold 1 (§8, property 7): leak and integrate, emit the
    spike, reset by subtraction unless in integrator mode; in
    single-spike mode a neuron that has fired emits nothing more. *)
Definition update (sf : SpikeFunc) (scale : Q) (single_spike integrator : bool)
    (beta : Q) (st : neuron) (current : Q) : Q * neuron :=
  let v := Qred (beta * potential st + current) in
  let s := if single_spike && fired st then 0%Q else sf_apply sf (v - 1)%Q scale in
  (s, {| potential := if integrator then v else Qred (v - s);
         fired := fired st || negb (Qeq_bool s 0) |}).

(** Modelled from the spec: the loop over the timesteps of §4.2 for a
    population of [b * n] neurons; [cols] holds the external current of
    each timestep, [prev] the spikes of the timestep before. With a
    recurrent source the current derived from the previous spikes is
    added from the second timestep on. *)
Fixpoint steps (sf : SpikeFunc) (scale : Q) (single_spike integrator : bool)
    (beta_of : nat -> Q) (source : option RecurrentSource) (b n : nat)
    (state : list neuron) (prev : option (list Q)) (cols : list (list Q))
  : result (list (list Q)) :=
  match cols with
  | [] => Ok []
  | c :: cols' =>
      fb ← match source, prev with
            | Some f, Some s => r ← f (Tensor.mk [b; n] s); mret (Tensor.data r)
            | _, _ => mret []
            end;
      let out :=
        map (fun r => update sf scale single_spike integrator (beta_of r)
                        (nth r state {| potential := 0; fired := false |})
                        (nth r c 0 + nth r fb 0)%Q)
            (seq 0 (b * n)) in
      rest ← steps sf scale single_spike integrator beta_of source b n
                (map snd out) (Some (map fst out)) cols';
      mret (map fst out :: rest)
  end.

(** Modelled from the spec: a strategy call on a current trace of shape
    [batch x neurons x time], returning the spike trace in the same
    layout. The leak coefficient is one value for all neurons or one per
    neuron; the initial potential defaults to zero. *)
Definition simulate (sf : SpikeFunc) (scale : Q) (single_spike integrator : bool)
    (source : option RecurrentSource) (x beta : Tensor.t) (v_init : option Tensor.t)
  : result Tensor.t :=
  match Tensor.shape x with
  | [b; n; t] =>
      let beta_of r :=
        nth (if Nat.eqb (length (Tensor.data beta)) 1 then 0 else r mod n)
            (Tensor.data beta) 0%Q in
      let state :=
        map (fun r => {| potential := match v_init with
                                      | Some v => nth r (Tensor.data v) 0%Q
                                      | None => 0%Q
                                      end;
                         fired := false |})
            (seq 0 (b * n)) in
      let cols :=
        map (fun ti => map (fun r => nth (r * t + ti) (Tensor.data x) 0%Q) (seq 0 (b * n)))
            (seq 0 t) in
      out ← steps sf scale single_spike integrator beta_of source b n state None cols;
      mret (Tensor.tabulate [b; n; t]
              (fun idx => match idx with
                          | [bi; j; ti] => nth (bi * n + j) (nth ti out []) 0%Q
                          | _ => 0%Q
                          end))
  | _ => Raise RuntimeError
  end.

(** Modelled from the spec: [MethodStandard] is the sequential strategy
    of §4.2. For [MethodFastNaive] (§4.3) the spec leaves the reset
    correction open; this instance thresholds the no-reset potential
    trace computed with the leak coefficient bound at construction. *)
#[export] Instance methods : Methods := {
  method_call f x beta v_init _ :=
    match f with
    | MethodStandard _ sf scale single_spike integrator source =>
        simulate sf scale (truthy single_spike) (truthy integrator) source x beta v_init
    | MethodFastNaive _ sf scale bound =>
        simulate sf scale false true None x bound v_init
    end;
}.

End Reference.

(** ** Vocabulary of the statements *)

(** What a call of the layer's strategy gives, with leak [b]: the call
    [self._method_func(x, b, v_init, return_type)]. *)
Definition strategy_result `{Methods} (self : BaseNeurons.t) (x b : Tensor.t)
    (v_init : option Tensor.t) (return_type : pyval) : result Tensor.t :=
  match BaseNeurons._method_func self with
  | Some mf => method_call mf x b v_init return_type
  | None => Raise TypeError
  end.

(** The object as [BaseNeurons.__init__] has it when it calls
    [_get_method_func]: every attribute set but [_method_func]. *)
Definition fresh (c : class) (t_len : Z) (beta_init : list Q)
    (beta_requires_grad : bool) (spike_func : SpikeFunc) (scale : Q)
    (method : string) : BaseNeurons.t :=
  BaseNeurons.mk c method t_len beta_init beta_requires_grad spike_func scale
    {| p_data := Tensor.of_list beta_init; requires_grad := beta_requires_grad |}
    None.

(** The source of recurrent current [_get_method_func] selects for the
    standard method. *)
Definition selected_source (c : class) (kwargs : gmap string pyval)
  : option RecurrentSource :=
  if truthy (kwargs_get kwargs "recurrent" (PBool false))
  then Some (get_recurrent_current c) else None.

(** The affine image [fc(x)] at batch [b], timestep [t] and output feature
    [o], for an input [x] of shape [batch x features x time]. *)
Definition affine (l : Linear.t) (x : Tensor.t) (b t o : nat) : Q :=
  Qplus
    (Linear.sum_over (Linear.in_features l)
       (fun i => Qmult (Tensor.get x [b; i; t]) (Tensor.get (Linear.weight l) [o; i])))
    (Tensor.get (Linear.bias l) [o]).

(** The entries a snapshot [hp] holds for the [BaseNeurons] part [b] of a
    layer, over the base class's dictionary. *)
Definition base_entries (super_hyperparams hp : gmap string pyval)
    (b : BaseNeurons.t) : Prop :=
  hp !! "method" = Some (PStr (BaseNeurons._method b))
  /\ hp !! "t_len" = Some (PInt (BaseNeurons._t_len b))
  /\ hp !! "beta_init" = Some (PList (map PFloat (BaseNeurons._beta_init b)))
  /\ hp !! "beta_requires_grad" = Some (PBool (BaseNeurons._beta_requires_grad b))
  /\ hp !! "spike_func" = Some (PStr (sf_class_name (BaseNeurons._spike_func b)))
  /\ hp !! "scale" = super_hyperparams !! "scale".

(** A standard strategy that holds a source of recurrent current which
    raises [NotImplementedError] whenever it is called. *)
Definition holds_failing_source (b : BaseNeurons.t) : Prop :=
  exists t_len spike_func scale single_spike integrator source,
    BaseNeurons._method_func b
    = Some (MethodStandard t_len spike_func scale single_spike integrator (Some source))
    /\ forall spikes, source spikes = Raise NotImplementedError.

(** A strategy that returns the leak coefficient it is called with. *)
Definition leak_echo : Methods :=
  {| method_call := fun _ _ beta _ _ => Ok beta |}.

(** ** Strategy objects that may keep state

    The strategy is an object of its own, held in [_method_func]. Here a
    call of it is given the state the object is in and yields, with its
    result, the state it leaves the object in, so that a strategy which
    carries a potential from one call to the next can be told from one
    which does not. The forward bodies are those of the classes above,
    run on the layer together with the state of its strategy. *)

Module Carrying.

Class StatefulMethods : Type := {
  carried : Type;
  call : MethodFunc -> Tensor.t -> Tensor.t -> option Tensor.t -> pyval -> carried
         -> result Tensor.t * carried;
}.

Section Forward.
Context `{StatefulMethods}.

(** A method body on the layer's attributes, run beside the strategy's
    state. *)
Definition own {S A : Type} (m : M S A) : M (S * carried) A :=
  zoom fst (fun s o => (s, snd o)) m.

(** [super()], the strategy's state going along. *)
Definition super_of {S A : Type} (base : S -> BaseNeurons.t)
    (set_base : BaseNeurons.t -> S -> S) (m : M (BaseNeurons.t * carried) A)
  : M (S * carried) A :=
  zoom (fun o => (base (fst o), snd o))
       (fun bo o => (set_base (fst bo) (fst o), snd bo)) m.

(** The call [f(x, beta, v_init, return_type)] of the strategy object. *)
Definition invoke (f : option MethodFunc) (x beta : Tensor.t)
    (v_init : option Tensor.t) (return_type : pyval)
  : M (BaseNeurons.t * carried) Tensor.t :=
  match f with
  | Some mf => fun o => let '(res, st) := call mf x beta v_init return_type (snd o) in
                        (res, (fst o, st))
  | None => lift (Raise TypeError)
  end.

(** [BaseNeurons.forward] *)
Definition base_forward (x : Tensor.t) (v_init : option Tensor.t)
    (return_type : pyval) : M (BaseNeurons.t * carried) Tensor.t :=
  f ← own (attr BaseNeurons._method_func);
  b ← own BaseNeurons.beta;
  invoke f x b v_init return_type.

(** [LinearNeurons.forward] *)
Definition linear_forward (x : Tensor.t) (v_init : option Tensor.t)
    (return_type : pyval) : M (LinearNeurons.t * carried) Tensor.t :=
  x ← lift (Tensor.permute [0; 2; 1] x);
  tc ← own (attr LinearNeurons._to_current);
  current ← lift (Linear.call tc x);
  current ← lift (Tensor.permute [0; 2; 1] current);
  spikes ← super_of LinearNeurons.base LinearNeurons.set_base
             (base_forward current v_init return_type);
  mret spikes.

(** [ConvNeurons.forward] *)
Definition conv_forward (x : Tensor.t) (v_init : option Tensor.t)
    (return_type : pyval) : M (ConvNeurons.t * carried) Tensor.t :=
  tc ← own (attr ConvNeurons._to_current);
  current ← lift (Conv3d.call tc x);
  '(b, n, t, h, w) ← lift (unpack5 (Tensor.shape current));
  current ← lift (Tensor.permute [0; 1; 3; 4; 2] current);
  current ← lift (Tensor.flatten 1 3 current);
  spikes ← super_of ConvNeurons.base ConvNeurons.set_base
             (base_forward current v_init return_type);
  fl ← own (attr ConvNeurons._flatten);
  if negb (truthy fl) then
    spikes ← lift (Tensor.view [b; n; h; w; t] spikes);
    spikes ← lift (Tensor.permute [0; 1; 4; 2; 3] spikes);
    mret spikes
  else mret spikes.

(** [PolyNeurons.forward] *)
Definition poly_forward (x : Tensor.t) (v_init : option Tensor.t)
    (return_type : pyval) : M (PolyNeurons.t * carried) Tensor.t :=
  x ← lift (Tensor.permute [0; 2; 1] x);
  current ← own (PolyNeurons._to_current x);
  current ← lift (Tensor.permute [0; 2; 1] current);
  spikes ← super_of PolyNeurons.base PolyNeurons.set_base
             (base_forward current v_init return_type);
  mret spikes.

(** [PolyConvNeurons.forward] *)
Definition polyconv_forward (x : Tensor.t) (v_init : option Tensor.t)
    (return_type : pyval) : M (PolyConvNeurons.t * carried) Tensor.t :=
  current ← own (PolyConvNeurons._to_current x);
  '(b, n, t, h, w) ← lift (unpack5 (Tensor.shape current));
  current ← lift (Tensor.permute [0; 1; 3; 4; 2] current);
  current ← lift (Tensor.flatten 1 3 current);
  spikes ← super_of PolyConvNeurons.base PolyConvNeurons.set_base
             (base_forward current v_init return_type);
  fl ← own (attr PolyConvNeurons._flatten);
  if negb (truthy fl) then
    spikes ← lift (Tensor.view [b; n; h; w; t] spikes);
    spikes ← lift (Tensor.permute [0; 1; 4; 2; 3] spikes);
    mret spikes
  else mret spikes.

(** The strategy objects keep nothing from a call: a call leaves them in
    the state it found them in. *)
Definition keeps_nothing : Prop :=
  forall mf x beta v_init return_type st,
    snd (call mf x beta v_init return_type st) = st.

(** The strategies as functions, their state being held at [st]. *)
Definition frozen (st : carried) : Methods :=
  {| method_call := fun mf x beta v_init return_type =>
                      fst (call mf x beta v_init return_type st) |}.

End Forward.

(** Modelled from the spec: the strategies of §4.2 and §4.3 as objects.
    "Current Trace and Membrane Potential are created fresh at the start
    of each forward call and discarded at its end": whatever potentials
    the object holds are neither read nor replaced by a call. *)
Definition reference : StatefulMethods :=
  {| carried := list Q;
     call := fun mf x beta v_init return_type st =>
               (method_call (Methods := Reference.methods) mf x beta v_init return_type,
                st) |}.

(** A strategy that carries a potential over: it integrates the first
    entry of the current into what it holds and returns the sum. *)
Definition carrying : StatefulMethods :=
  {| carried := Q;
     call := fun _ x _ _ _ st =>
               let v := Qred (st + nth 0 (Tensor.data x) 0)%Q in
               (Ok (Tensor.mk [1] [v]), v) |}.

End Carrying.

(** ** Sample objects *)

Module Sample.

Definition unwrap (r : result Tensor.t) : Tensor.t :=
  match r with
  | Ok x => x
  | Raise _ => Tensor.mk [] []
  end.

(** A 1x1 convolution with weight 1 and bias 0. *)
Definition conv : Conv3d.t :=
  Conv3d.mk 1 1 1 1 (Tensor.mk [1; 1; 1; 1; 1] [1%Q]) (Tensor.mk [1] [0%Q]).

(** A convolutional layer with the standard method, not flattening. *)
Definition conv_layer : ConvNeurons.t :=
  ConvNeurons.mk
    (BaseNeurons.set_method_func
       (Some (MethodStandard 2 Reference.heaviside 10 (PBool false) (PBool false) None))
       (fresh CConvNeurons 2 [9 # 10]%Q false Reference.heaviside 10 "standard"))
    1 1 1 1 (PBool false) conv.

(** One item, one channel, two timesteps of a 2x2 image. *)
Definition image : Tensor.t :=
  Tensor.mk [1; 1; 2; 2; 2] [1; 0; 2; 0; 0; 1; 0; 1]%Q.

Definition current : Tensor.t := Eval vm_compute in unwrap (Conv3d.call conv image).

Definition flat : Tensor.t :=
  Eval vm_compute in
    unwrap (p ← Tensor.permute [0; 1; 3; 4; 2] current; Tensor.flatten 1 3 p).

Definition spikes : Tensor.t :=
  Eval vm_compute in
    unwrap (strategy_result (H := Reference.methods) (ConvNeurons.base conv_layer) flat
              (Tensor.clamp 0 1 (p_data (BaseNeurons._beta (ConvNeurons.base conv_layer))))
              None PNone).

(** Two affine maps from two features to one. *)
Definition fc1 : Linear.t :=
  Linear.mk 2 1 (Tensor.mk [1; 2] [1; 2]%Q) (Tensor.mk [1] [0%Q]).
Definition fc2 : Linear.t :=
  Linear.mk 2 1 (Tensor.mk [1; 2] [1; 1]%Q) (Tensor.mk [1] [1%Q]).

Definition poly_layer : PolyNeurons.t :=
  PolyNeurons.mk
    (BaseNeurons.set_method_func
       (Some (MethodStandard 2 Reference.heaviside 10 (PBool false) (PBool false) None))
       (fresh CPolyNeurons 2 [9 # 10]%Q false Reference.heaviside 10 "standard"))
    2 1 fc1 fc2.

(** One item, two features, two timesteps. *)
Definition trace : Tensor.t := Tensor.mk [1; 2; 2] [1; 0; 0; 1]%Q.

End Sample.

(** ** More sample objects *)

Module Sample2.

Definition standard_base (c : class) : BaseNeurons.t :=
  BaseNeurons.set_method_func
    (Some (MethodStandard 2 Reference.heaviside 10 (PBool false) (PBool false) None))
    (fresh c 2 [9 # 10]%Q false Reference.heaviside 10 "standard").

(** A linear layer from two features to one neuron. *)
Definition linear_layer : LinearNeurons.t :=
  LinearNeurons.mk (standard_base CLinearNeurons) 2 1 Sample.fc1.

(** A trace with three features, one too many for [linear_layer]. *)
Definition wide_trace : Tensor.t := Tensor.mk [1; 3; 2] [1; 0; 0; 1; 1; 1]%Q.

(** A convolutional layer that keeps the neuron axis flat. *)
Definition flat_conv_layer : ConvNeurons.t :=
  ConvNeurons.mk (standard_base CConvNeurons) 1 1 1 1 (PBool true) Sample.conv.

(** An affine map from two features to one that is zero throughout. *)
Definition zero_fc : Linear.t :=
  Linear.mk 2 1 (Tensor.mk [1; 2] [0; 0]%Q) (Tensor.mk [1] [0%Q]).

Definition poly_layer_zero : PolyNeurons.t :=
  PolyNeurons.mk (standard_base CPolyNeurons) 2 1 Sample.fc1 zero_fc.

(** A spike function that never fires; a plain function as well. *)
Definition silent : SpikeFunc :=
  {| sf_class_name := "function"; sf_apply := fun _ _ => 0%Q |}.

(** A strategy that returns a single number whatever it is given. *)
Definition summary_methods : Methods :=
  {| method_call := fun _ _ _ _ _ => Ok (Tensor.mk [1] [0%Q]) |}.

End Sample2.

(** ** The training script ([scripts/train.py])

    [get_dataset] and [get_model] choose, by the name of the dataset, the
    objects the run is made of. The datasets, transforms and models come
    from packages outside these sources, so a call of one of them is kept
    as the call it is: the function called, the positional arguments and
    the keyword arguments. [ast.literal_eval] is an argument of the two
    functions; it yields a value or raises. The lines the functions print
    are left out. *)

Module Train.

(** The parsed command line, as far as the two functions read it. A flag
    that was not given is [PNone], unless it has a default. *)
Record Namespace : Type := {
  method : pyval;
  t_len : pyval;
  beta_requires_grad : pyval;
  readout_max : pyval;
  single_spike : pyval;
  d : pyval;
  recurrent : pyval;
  n_layers : pyval;
  detach_recurrent_spikes : pyval;
  dataset : pyval;
  load_spatial_dims : pyval;
  use_augmentation : pyval;
}.

(** What a function of the script yields. *)
Inductive outcome (A : Type) : Type :=
  | Return (a : A)
  | UnboundLocalError (name : string)
  | LiteralEvalError.
Arguments Return {A} a.
Arguments UnboundLocalError {A} name.
Arguments LiteralEvalError {A}.

#[global] Instance outcome_ret : MRet outcome := @Return.
#[global] Instance outcome_bind : MBind outcome :=
  fun A B k o =>
    match o with
    | Return a => k a
    | UnboundLocalError name => UnboundLocalError name
    | LiteralEvalError => LiteralEvalError
    end.

(** An object built by the packages the script imports. *)
#[warnings="-register-all"]
Inductive obj : Type :=
  | Val (v : pyval)
  | Call (func : string) (args : list obj) (kwargs : list (string * obj)).

(** [v == s] for a string literal [s]. *)
Definition is_str (v : pyval) (s : string) : bool :=
  match v with
  | PStr s' => String.eqb s' s
  | _ => false
  end.

(** [v == 0]. *)
Definition is_zero (v : pyval) : bool :=
  match v with
  | PInt z => Z.eqb z 0
  | PBool b => negb b
  | PFloat q => Qeq_bool q 0
  | _ => false
  end.

(** Reading a local variable that may not have been assigned. *)
Definition read_local {A : Type} (name : string) (v : option A) : outcome A :=
  match v with
  | Some a => Return a
  | None => UnboundLocalError name
  end.

Section Script.

Variable literal_eval : pyval -> option pyval.

Definition eval (v : pyval) : outcome pyval :=
  match literal_eval v with
  | Some r => Return r
  | None => LiteralEvalError
  end.

Definition path_join (parts : list obj) : obj := Call "os.path.join" parts [].

Definition get_dataset (base_path : pyval) (args : Namespace) : outcome (obj * obj) :=
  lsd ← eval (load_spatial_dims args);
  let flatten := PBool (negb (truthy lsd)) in
  use_augmentation ← eval (use_augmentation args);
  let val_dataset := Val PNone in
  let '(dataset, val_dataset) :=
    if is_str (dataset args) "yinyang" then
      (Some (Call "datasets.YinYangDataset" []
               [("size", Val (PInt 20000)); ("t_len", Val (t_len args));
                ("transform",
                 Call "List.get_yingyang_transform" [Val (t_len args)] [])]),
       val_dataset)
    else if is_str (dataset args) "mnist" then
      let train_transform :=
        Call "List.get_mnist_transform"
          [Val (t_len args); Val flatten; Val use_augmentation] [] in
      let val_transform :=
        Call "List.get_mnist_transform"
          [Val (t_len args); Val flatten; Val (PBool false)] [] in
      (Some (Call "datasets.MNISTDataset"
               [path_join [Val base_path; Val (PStr "data")]]
               [("t_len", Val (t_len args)); ("transform", train_transform)]),
       Call "datasets.MNISTDataset"
         [path_join [Val base_path; Val (PStr "data")]]
         [("t_len", Val (t_len args)); ("train", Val (PBool false));
          ("transform", val_transform)])
    else if is_str (dataset args) "fmnist" then
      let train_transform :=
        Call "List.get_fmnist_transform"
          [Val (t_len args); Val flatten; Val use_augmentation] [] in
      let val_transform :=
        Call "List.get_fmnist_transform"
          [Val (t_len args); Val flatten; Val (PBool false)] [] in
      (Some (Call "datasets.FMNISTDataset"
               [path_join [Val base_path; Val (PStr "data")]]
               [("t_len", Val (t_len args)); ("transform", train_transform)]),
       Call "datasets.FMNISTDataset"
         [path_join [Val base_path; Val (PStr "data")]]
         [("t_len", Val (t_len args)); ("train", Val (PBool false));
          ("transform", val_transform)])
    else if is_str (dataset args) "nmnist" then
      let transform := Call "List.get_nmnist_transform" [Val (t_len args)] [] in
      (Some (Call "datasets.NMNISTDataset"
               [path_join [Val base_path; Val (PStr "data"); Val (PStr "N-MNIST")]]
               [("dt", Val (PInt 1)); ("transform", transform)]),
       Call "datasets.NMNISTDataset"
         [path_join [Val base_path; Val (PStr "data"); Val (PStr "N-MNIST")]]
         [("train", Val (PBool false)); ("dt", Val (PInt 1));
          ("transform", transform)])
    else if is_str (dataset args) "shd" then
      let transform := Call "List.get_shd_transform" [Val (t_len args)] [] in
      (Some (Call "datasets.SHDDataset"
               [path_join [Val base_path; Val (PStr "data"); Val (PStr "SHD")]]
               [("dt", Val (PInt 2)); ("transform", transform)]),
       Call "datasets.SHDDataset"
         [path_join [Val base_path; Val (PStr "data"); Val (PStr "SHD")]]
         [("train", Val (PBool false)); ("dt", Val (PInt 2));
          ("transform", transform)])
    else (None, val_dataset) in
  dataset ← read_local "dataset" dataset;
  mret (dataset, val_dataset).

(** The keyword arguments the models other than [YingYangModel] share. *)
Definition model_kwargs (beta_requires_grad readout_max single_spike : pyval)
  : list (string * obj) :=
  [("heterogeneous_beta", Val (PBool true));
   ("beta_requires_grad", Val beta_requires_grad);
   ("readout_max", Val readout_max);
   ("single_spike", Val single_spike)].

(** What [get_model] returns: the model, the milestones and, where the
    function re-initialises the weights of the model's first layer after
    building it, the bounds [a] and [b] of the uniform draw. *)
Record Built : Type := {
  model : obj;
  milestones : list Z;
  first_layer_uniform : option (Q * Q);
}.

Definition get_model (t_len : pyval) (args : Namespace) : outcome Built :=
  load_conv_model ← eval (load_spatial_dims args);
  single_spike ← eval (single_spike args);
  beta_requires_grad ← eval (beta_requires_grad args);
  readout_max ← eval (readout_max args);
  recurrent ← eval (recurrent args);
  detach_recurrent_spikes ← eval (detach_recurrent_spikes args);
  let kw := model_kwargs beta_requires_grad readout_max single_spike in
  let milestones := [-1]%Z in
  let '(model, milestones, reinit) :=
    if is_str (dataset args) "yinyang" then
      (Some (Call "models.YingYangModel" [Val (method args); Val t_len]
               [("single_spike", Val single_spike)]),
       [50; 100]%Z, Some (- (4 * (1 # 2)), 4 * (1 # 2))%Q)
    else if is_str (dataset args) "mnist" then
      if truthy load_conv_model then
        (Some (Call "models.ConvMNINSTModel" [Val (method args); Val t_len] kw),
         [30; 60; 90]%Z, None)
      else
        (Some (Call "models.LinearMNINSTModel" [Val (method args); Val t_len] kw),
         [15; 90; 120]%Z, None)
    else if is_str (dataset args) "fmnist" then
      if truthy load_conv_model then
        (Some (Call "models.ConvFMNINSTModel" [Val (method args); Val t_len] kw),
         [30; 60; 90]%Z, None)
      else
        (Some (Call "models.LinearFMNINSTModel" [Val (method args); Val t_len] kw),
         [15; 90; 120]%Z, None)
    else if is_str (dataset args) "nmnist" then
      (Some (Call "models.NMNISTModel" [Val (method args); Val t_len] kw),
       [30; 60; 90]%Z, None)
    else if is_str (dataset args) "shd" then
      if is_zero (d args) then
        (Some (Call "models.SHDModel" [Val (method args); Val t_len] kw),
         [30; 60; 90]%Z, None)
      else
        (Some (Call "models.SHDDModel"
                 [Val (d args); Val recurrent; Val (method args); Val t_len;
                  Val (n_layers args); Val detach_recurrent_spikes] kw),
         [40; 80; 100]%Z, None)
    else (None, milestones, None) in
  model ← read_local "model" model;
  mret {| model := model; milestones := milestones; first_layer_uniform := reinit |}.

End Script.

(** The dataset names the two functions know. *)
Definition known (v : pyval) : bool :=
  is_str v "yinyang" || is_str v "mnist" || is_str v "fmnist" || is_str v "nmnist"
  || is_str v "shd".

Definition with_use_augmentation (v : pyval) (args : Namespace) : Namespace :=
  {| method := method args; t_len := t_len args;
     beta_requires_grad := beta_requires_grad args; readout_max := readout_max args;
     single_spike := single_spike args; d := d args; recurrent := recurrent args;
     n_layers := n_layers args;
     detach_recurrent_spikes := detach_recurrent_spikes args;
     dataset := dataset args; load_spatial_dims := load_spatial_dims args;
     use_augmentation := v |}.

Definition with_recurrence (r dt : pyval) (args : Namespace) : Namespace :=
  {| method := method args; t_len := t_len args;
     beta_requires_grad := beta_requires_grad args; readout_max := readout_max args;
     single_spike := single_spike args; d := d args; recurrent := r;
     n_layers := n_layers args;
     detach_recurrent_spikes := dt;
     dataset := dataset args; load_spatial_dims := load_spatial_dims args;
     use_augmentation := use_augmentation args |}.

(** A reading of the literals [True] and [False], for the samples. *)
Definition bool_literal (v : pyval) : option pyval :=
  match v with
  | PStr "True" => Some (PBool true)
  | PStr "False" => Some (PBool false)
  | _ => None
  end.

(** A command line for MNIST with spatial dimensions and augmentation. *)
Definition sample_args : Namespace :=
  {| method := PStr "standard"; t_len := PInt 8;
     beta_requires_grad := PStr "False"; readout_max := PStr "False";
     single_spike := PStr "False"; d := PInt 0; recurrent := PStr "True";
     n_layers := PInt 1; detach_recurrent_spikes := PStr "True";
     dataset := PStr "mnist"; load_spatial_dims := PStr "True";
     use_augmentation := PStr "True" |}.

(** The same with a dataset name the script does not know. *)
Definition sample_args_cifar : Namespace :=
  {| method := PStr "standard"; t_len := PInt 8;
     beta_requires_grad := PStr "False"; readout_max := PStr "False";
     single_spike := PStr "False"; d := PInt 0; recurrent := PStr "True";
     n_layers := PInt 1; detach_recurrent_spikes := PStr "True";
     dataset := PStr "cifar"; load_spatial_dims := PStr "True";
     use_augmentation := PStr "True" |}.

End Train.

(** * Properties *)

(** ** Index arithmetic of tensors *)

Section TensorFacts.
Import Tensor.

Lemma numel_cons d s : numel (d :: s) = d * numel s.
Proof. reflexivity. Qed.

Lemma valid_nil_inv idx : valid [] idx -> idx = [].
Proof. intros H. inversion H. reflexivity. Qed.

Lemma valid_cons_inv d s idx :
  valid (d :: s) idx -> exists i idx', idx = i :: idx' /\ i < d /\ valid s idx'.
Proof. intros H. inversion H; subst. eauto. Qed.

Lemma ravel_lt s : forall idx, valid s idx -> ravel s idx < numel s.
Proof.
  induction s as [|d s IH]; intros idx Hv.
  - apply valid_nil_inv in Hv. subst. simpl. lia.
  - apply valid_cons_inv in Hv as (i & idx' & -> & Hi & Hv).
    specialize (IH _ Hv). rewrite numel_cons. cbn [ravel]. nia.
Qed.

Lemma unravel_ravel s : forall idx, valid s idx -> unravel s (ravel s idx) = idx.
Proof.
  induction s as [|d s IH]; intros idx Hv.
  - apply valid_nil_inv in Hv. subst. reflexivity.
  - apply valid_cons_inv in Hv as (i & idx' & -> & Hi & Hv).
    pose proof (ravel_lt _ _ Hv) as Hr. cbn [ravel unravel].
    assert (Hn : numel s <> 0) by lia.
    rewrite Nat.div_add_l by exact Hn.
    rewrite (Nat.div_small _ _ Hr), Nat.add_0_r.
    rewrite Nat.add_comm, Nat.Div0.mod_add, (Nat.mod_small _ _ Hr).
    rewrite (IH _ Hv). reflexivity.
Qed.

Lemma unravel_valid s : forall k, k < numel s -> valid s (unravel s k).
Proof.
  induction s as [|d s IH]; intros k Hk.
  - constructor.
  - rewrite numel_cons in Hk. cbn [unravel].
    assert (Hn : numel s <> 0) by (intros E; rewrite E in Hk; lia).
    constructor.
    + apply Nat.Div0.div_lt_upper_bound. lia.
    + apply IH. apply Nat.mod_upper_bound. exact Hn.
Qed.

Lemma ravel_unravel s : forall k, k < numel s -> ravel s (unravel s k) = k.
Proof.
  induction s as [|d s IH]; intros k Hk.
  - simpl in *. lia.
  - rewrite numel_cons in Hk. cbn [unravel ravel].
    assert (Hn : numel s <> 0) by (intros E; rewrite E in Hk; lia).
    rewrite IH by (apply Nat.mod_upper_bound; exact Hn).
    pose proof (Nat.div_mod_eq k (numel s)). lia.
Qed.

Lemma wf_tabulate s f : wf (tabulate s f).
Proof. unfold wf, tabulate. cbn. rewrite length_map, length_seq. reflexivity. Qed.

Lemma nth_tabulate s f k :
  k < numel s -> nth k (data (tabulate s f)) 0%Q = f (unravel s k).
Proof.
  intros Hk. unfold tabulate. cbn [data].
  rewrite (nth_indep _ 0%Q (f (unravel s 0)))
    by (rewrite length_map, length_seq; exact Hk).
  rewrite (List.map_nth (fun k => f (unravel s k)) (seq 0 (numel s)) 0 k).
  rewrite seq_nth by exact Hk. reflexivity.
Qed.

Lemma get_tabulate s f idx : valid s idx -> get (tabulate s f) idx = f idx.
Proof.
  intros Hv. unfold get. cbn [shape tabulate].
  change (map _ _) with (data (tabulate s f)).
  rewrite nth_tabulate by (apply ravel_lt; exact Hv).
  rewrite unravel_ravel by exact Hv. reflexivity.
Qed.

(** Two well-formed tensors of one shape with the same entries are equal. *)
Lemma tensor_ext (a b : Tensor.t) :
  wf a -> wf b -> shape a = shape b ->
  (forall idx, valid (shape a) idx -> get a idx = get b idx) ->
  a = b.
Proof.
  destruct a as [sa da], b as [sb db]. unfold wf, get. cbn.
  intros Ha Hb <- Hget. f_equal.
  apply (nth_ext _ _ 0%Q 0%Q); [congruence|].
  intros k Hk. rewrite Ha in Hk.
  specialize (Hget _ (unravel_valid _ _ Hk)).
  rewrite ravel_unravel in Hget by exact Hk. exact Hget.
Qed.

End TensorFacts.

(** ** The leak clamp *)

Section Clamp.
Import Tensor.
Local Open Scope Q_scope.

Lemma clamp_entry_cases (v : Q) :
  (v < 0 /\ clamp_entry 0 1 v = 0)
  \/ (1 < v /\ clamp_entry 0 1 v = 1)
  \/ (0 <= v <= 1 /\ clamp_entry 0 1 v = v).
Proof.
  unfold clamp_entry, Qmin, Qmax, GenericMinMax.gmin, GenericMinMax.gmax.
  destruct (v ?= 0) eqn:E0.
  - apply Qeq_alt in E0.
    assert (Hlt : v < 1) by (rewrite E0; reflexivity).
    destruct (v ?= 1) eqn:E1.
    + right; right.
      repeat split; [rewrite E0; apply Qle_refl | apply Qlt_le_weak; exact Hlt].
    + right; right.
      repeat split; [rewrite E0; apply Qle_refl | apply Qlt_le_weak; exact Hlt].
    + apply Qgt_alt in E1. exfalso. apply (Qlt_irrefl v).
      apply Qlt_trans with 1; assumption.
  - apply Qlt_alt in E0. left. split; [exact E0 | reflexivity].
  - apply Qgt_alt in E0. destruct (v ?= 1) eqn:E1.
    + apply Qeq_alt in E1. right; right.
      repeat split; [apply Qlt_le_weak; exact E0 | rewrite E1; apply Qle_refl].
    + apply Qlt_alt in E1. right; right.
      repeat split; apply Qlt_le_weak; assumption.
    + apply Qgt_alt in E1. right; left. split; [exact E1 | reflexivity].
Qed.

Lemma clamp_entry_range (v : Q) : 0 <= clamp_entry 0 1 v <= 1.
Proof.
  destruct (clamp_entry_cases v) as [[_ ->] | [[_ ->] | [H ->]]];
    [split; discriminate | split; discriminate | exact H].
Qed.

Lemma clamp_entry_below (v : Q) : v < 0 -> clamp_entry 0 1 v = 0.
Proof.
  intros Hv. destruct (clamp_entry_cases v) as [[_ E] | [[H _] | [[H _] _]]].
  - exact E.
  - exfalso. apply (Qlt_irrefl 0). apply Qlt_trans with 1; [reflexivity|].
    apply Qlt_trans with v; assumption.
  - exfalso. apply (Qlt_irrefl v). apply Qlt_le_trans with 0; assumption.
Qed.

Lemma clamp_entry_above (v : Q) : 1 < v -> clamp_entry 0 1 v = 1.
Proof.
  intros Hv. destruct (clamp_entry_cases v) as [[H _] | [[_ E] | [[_ H] _]]].
  - exfalso. apply (Qlt_irrefl 0). apply Qlt_trans with 1; [reflexivity|].
    apply Qlt_trans with v; assumption.
  - exact E.
  - exfalso. apply (Qlt_irrefl v). apply Qle_lt_trans with 1; assumption.
Qed.

Lemma clamp_entry_inside (v : Q) : 0 <= v <= 1 -> clamp_entry 0 1 v = v.
Proof.
  intros [H0 H1]. destruct (clamp_entry_cases v) as [[H _] | [[H _] | [_ E]]].
  - exfalso. apply (Qlt_irrefl v). apply Qlt_le_trans with 0; assumption.
  - exfalso. apply (Qlt_irrefl v). apply Qle_lt_trans with 1; assumption.
  - exact E.
Qed.

Lemma clamp_entry_idem (v : Q) :
  clamp_entry 0 1 (clamp_entry 0 1 v) = clamp_entry 0 1 v.
Proof. apply clamp_entry_inside, clamp_entry_range. Qed.

Lemma clamp_idem (x : Tensor.t) : clamp 0 1 (clamp 0 1 x) = clamp 0 1 x.
Proof.
  unfold clamp. cbn [shape data]. f_equal.
  rewrite List.map_map. apply List.map_ext. intros v. apply clamp_entry_idem.
Qed.

Lemma nth_clamp (x : Tensor.t) (i : nat) :
  nth i (data (clamp 0 1 x)) 0 = clamp_entry 0 1 (nth i (data x) 0).
Proof.
  unfold clamp. cbn [data].
  exact (List.map_nth (clamp_entry 0 1) (data x) 0 i).
Qed.

End Clamp.

(** ** [BaseNeurons]: reading the leak, calling the strategy *)

Section BaseFacts.
Context `{Methods}.

Lemma beta_eq (self : BaseNeurons.t) :
  BaseNeurons.beta self
  = (Ok (Tensor.clamp 0 1 (p_data (BaseNeurons._beta self))), self).
Proof. reflexivity. Qed.

Lemma base_forward_eq (self : BaseNeurons.t) x v_init return_type :
  BaseNeurons.forward x v_init return_type self
  = (strategy_result self x (Tensor.clamp 0 1 (p_data (BaseNeurons._beta self)))
       v_init return_type, self).
Proof.
  unfold BaseNeurons.forward, strategy_result, mbind, M_bind, st_bind, attr, lift.
  rewrite beta_eq. destruct (BaseNeurons._method_func self); reflexivity.
Qed.

End BaseFacts.

(** C1. The leak coefficient read through the [beta] property is the
    stored parameter clamped entrywise to [0,1], that is
    [min(max(b, 0), 1)]: it lies in [0,1], is 0 for a stored value below
    0, 1 for a stored value above 1 and the stored value itself inside
    the interval. Reading it leaves the object, and so the stored
    parameter, as it was; a forward call hands the clamped value to the
    strategy and therefore gives what it gives on the layer whose stored
    parameter is the clamped one, while the stored parameter persists. *)
Theorem beta_clamped_on_read `{Methods} (self : BaseNeurons.t) :
  let stored := p_data (BaseNeurons._beta self) in
  let read := Tensor.clamp 0 1 stored in
  BaseNeurons.beta self = (Ok read, self)
  /\ Tensor.shape read = Tensor.shape stored
  /\ length (Tensor.data read) = length (Tensor.data stored)
  /\ (forall i,
        let b := nth i (Tensor.data stored) 0%Q in
        let c := nth i (Tensor.data read) 0%Q in
        c = Qmin (Qmax b 0) 1
        /\ (0 <= c <= 1)%Q
        /\ ((b < 0)%Q -> c = 0%Q)
        /\ ((1 < b)%Q -> c = 1%Q)
        /\ ((0 <= b <= 1)%Q -> c = b))
  /\ (forall x v_init return_type,
        BaseNeurons.forward x v_init return_type self
        = (strategy_result self x read v_init return_type, self)
        /\ fst (BaseNeurons.forward x v_init return_type self)
           = fst (BaseNeurons.forward x v_init return_type
                    (BaseNeurons.set_beta_data read self))).
Proof.
  cbv zeta. split; [apply beta_eq|]. split; [reflexivity|].
  split; [unfold Tensor.clamp; cbn; apply length_map|]. split.
  - intros i. rewrite nth_clamp. split; [reflexivity|].
    split; [apply clamp_entry_range|].
    split; [apply clamp_entry_below|].
    split; [apply clamp_entry_above | apply clamp_entry_inside].
  - intros x v_init return_type. rewrite !base_forward_eq. split; [reflexivity|].
    cbn [fst BaseNeurons.set_beta_data BaseNeurons._beta p_data].
    rewrite clamp_idem. reflexivity.
Qed.

(** ** Construction *)

Section Construction.

Variables (c : class) (t_len : Z) (beta_init : list Q) (beta_requires_grad : bool)
          (spike_func : SpikeFunc) (scale : Q) (kwargs : gmap string pyval).

Local Abbreviation fresh := (fresh c t_len beta_init beta_requires_grad spike_func scale).
Local Abbreviation selected_source := (selected_source c kwargs).

Lemma init_standard :
  BaseNeurons.__init__ c METHOD_STANDARD t_len beta_init beta_requires_grad
    spike_func scale kwargs
  = Ok (BaseNeurons.set_method_func
          (Some (MethodStandard t_len spike_func scale
                   (kwargs_get kwargs "single_spike" (PBool false))
                   (kwargs_get kwargs "integrator" (PBool false))
                   selected_source))
          (fresh METHOD_STANDARD)).
Proof. reflexivity. Qed.

Lemma init_fast_naive :
  BaseNeurons.__init__ c METHOD_FAST_NAIVE t_len beta_init beta_requires_grad
    spike_func scale kwargs
  = Ok (BaseNeurons.set_method_func
          (Some (MethodFastNaive t_len spike_func scale
                   (Tensor.clamp 0 1 (Tensor.of_list beta_init))))
          (fresh METHOD_FAST_NAIVE)).
Proof. reflexivity. Qed.

Lemma init_fast_optimised :
  BaseNeurons.__init__ c METHOD_FAST_OPTIMISED t_len beta_init beta_requires_grad
    spike_func scale kwargs
  = Raise NotImplementedError.
Proof. reflexivity. Qed.

(** Whatever the method, a constructed object is the fresh object with
    the strategy [_get_method_func] returned for it. *)
Lemma init_inv (method : string) (self : BaseNeurons.t) :
  BaseNeurons.__init__ c method t_len beta_init beta_requires_grad
    spike_func scale kwargs = Ok self ->
  exists f,
    BaseNeurons._get_method_func t_len kwargs (fresh method) = (Ok f, fresh method)
    /\ self = BaseNeurons.set_method_func f (fresh method).
Proof.
  unfold BaseNeurons.__init__. fold (fresh method).
  assert (Hst : snd (BaseNeurons._get_method_func t_len kwargs (fresh method))
                = fresh method).
  { unfold BaseNeurons._get_method_func, mbind, M_bind, st_bind, attr, lift,
      mret, M_ret, st_ret. cbn [fresh BaseNeurons._method].
    repeat (destruct (String.eqb _ _); [reflexivity|]). reflexivity. }
  destruct (BaseNeurons._get_method_func t_len kwargs (fresh method)) as [[f|e] s'];
    cbn [snd] in Hst; subst s'; intros E; [|discriminate].
  injection E as <-. eauto.
Qed.

End Construction.

(** C2. With method ["fast_optimised"] the constructor of every layer
    class raises [NotImplementedError]: [BaseNeurons.__init__] does, in
    its call of [_get_method_func], and the other constructors start by
    running it. No object exists on which [forward] could be called. *)
Theorem fast_optimised_not_implemented :
  (forall c t_len beta_init beta_requires_grad spike_func scale kwargs,
     BaseNeurons.__init__ c "fast_optimised" t_len beta_init beta_requires_grad
       spike_func scale kwargs = Raise NotImplementedError)
  /\ (forall n_in n_out t_len beta_init beta_requires_grad spike_func scale kwargs tc,
        LinearNeurons.__init__ n_in n_out "fast_optimised" t_len beta_init
          beta_requires_grad spike_func scale kwargs tc = Raise NotImplementedError)
  /\ (forall n_in n_out kernel stride t_len beta_init beta_requires_grad spike_func
             scale kwargs tc,
        ConvNeurons.__init__ n_in n_out kernel stride "fast_optimised" t_len beta_init
          beta_requires_grad spike_func scale kwargs tc = Raise NotImplementedError)
  /\ (forall n_in n_out t_len beta_init beta_requires_grad spike_func scale kwargs
             fc1 fc2,
        PolyNeurons.__init__ n_in n_out "fast_optimised" t_len beta_init
          beta_requires_grad spike_func scale kwargs fc1 fc2
        = Raise NotImplementedError)
  /\ (forall n_in n_out kernel stride t_len beta_init beta_requires_grad spike_func
             scale kwargs conv_1 conv_2,
        PolyConvNeurons.__init__ n_in n_out kernel stride "fast_optimised" t_len
          beta_init beta_requires_grad spike_func scale kwargs conv_1 conv_2
        = Raise NotImplementedError).
Proof. repeat split; intros; reflexivity. Qed.

(** C3, as the code has it. The strategy of a layer is the one
    [__init__] obtained from [_get_method_func] on the object under
    construction; for ["fast_naive"] it carries the clamped leak of that
    moment. Every forward call, also after the stored leak has been
    changed, calls this very strategy and builds none; the leak it hands
    to the strategy as an argument is read anew at each call, as the
    stored leak of the moment, clamped. *)
Theorem strategy_built_once_leak_read_per_call `{Methods}
    (c : class) (method : string) (t_len : Z) (beta_init : list Q)
    (beta_requires_grad : bool) (spike_func : SpikeFunc) (scale : Q)
    (kwargs : gmap string pyval) (self : BaseNeurons.t) :
  BaseNeurons.__init__ c method t_len beta_init beta_requires_grad spike_func scale
    kwargs = Ok self ->
  let obj := fresh c t_len beta_init beta_requires_grad spike_func scale method in
  let built := BaseNeurons._method_func self in
  BaseNeurons._get_method_func t_len kwargs obj = (Ok built, obj)
  /\ (method = "fast_naive" ->
      built = Some (MethodFastNaive t_len spike_func scale
                      (Tensor.clamp 0 1 (Tensor.of_list beta_init))))
  /\ (forall x v_init return_type,
        BaseNeurons.forward x v_init return_type self
        = (match built with
           | Some mf => method_call mf x (Tensor.clamp 0 1 (Tensor.of_list beta_init))
                          v_init return_type
           | None => Raise TypeError
           end, self))
  /\ (forall d x v_init return_type,
        BaseNeurons.forward x v_init return_type (BaseNeurons.set_beta_data d self)
        = (match built with
           | Some mf => method_call mf x (Tensor.clamp 0 1 d) v_init return_type
           | None => Raise TypeError
           end, BaseNeurons.set_beta_data d self))
  /\ (method = "fast_naive" ->
      forall d x v_init return_type,
        BaseNeurons.forward x v_init return_type (BaseNeurons.set_beta_data d self)
        = (method_call
             (MethodFastNaive t_len spike_func scale
                (Tensor.clamp 0 1 (Tensor.of_list beta_init)))
             x (Tensor.clamp 0 1 d) v_init return_type,
           BaseNeurons.set_beta_data d self)).
Proof.
  intros Hinit obj built.
  destruct (init_inv _ _ _ _ _ _ _ _ _ Hinit) as (f & Hf & Hself).
  assert (Hbuilt : built = f) by (unfold built; rewrite Hself; reflexivity).
  assert (Hnaive : method = "fast_naive" ->
                   built = Some (MethodFastNaive t_len spike_func scale
                                   (Tensor.clamp 0 1 (Tensor.of_list beta_init)))).
  { intros ->.
    pose proof (init_fast_naive c t_len beta_init beta_requires_grad spike_func scale
                  kwargs) as E.
    unfold METHOD_FAST_NAIVE in E. rewrite E in Hinit. injection Hinit as Hinit.
    unfold built. rewrite <- Hinit. reflexivity. }
  assert (Hlater : forall d x v_init return_type,
             BaseNeurons.forward x v_init return_type (BaseNeurons.set_beta_data d self)
             = (match built with
                | Some mf => method_call mf x (Tensor.clamp 0 1 d) v_init return_type
                | None => Raise TypeError
                end, BaseNeurons.set_beta_data d self)).
  { intros d x v_init return_type. rewrite base_forward_eq. reflexivity. }
  split; [rewrite Hbuilt; exact Hf|]. split; [exact Hnaive|]. split; [|split].
  - intros x v_init return_type. rewrite base_forward_eq. unfold strategy_result.
    fold built. rewrite Hself. reflexivity.
  - exact Hlater.
  - intros Hm d x v_init return_type. rewrite Hlater, (Hnaive Hm). reflexivity.
Qed.

Lemma strategy_built_once_leak_read_per_call_witness :
  exists self,
    BaseNeurons.__init__ CBaseNeurons "fast_naive" 5 [9 # 10]%Q true
      Reference.heaviside 100 ∅ = Ok self
    /\ forall d x v_init return_type,
         BaseNeurons.forward (H := Reference.methods) x v_init return_type
           (BaseNeurons.set_beta_data d self)
         = (method_call (Methods := Reference.methods)
              (MethodFastNaive 5 Reference.heaviside 100
                 (Tensor.clamp 0 1 (Tensor.of_list [9 # 10]%Q)))
              x (Tensor.clamp 0 1 d) v_init return_type,
            BaseNeurons.set_beta_data d self).
Proof.
  eexists. split; [reflexivity|].
  apply (strategy_built_once_leak_read_per_call (H := Reference.methods)
           CBaseNeurons "fast_naive" 5 [9 # 10]%Q true Reference.heaviside 100 ∅ _
           eq_refl).
  reflexivity.
Defined.

(** C3, refuted as stated: the leak is read anew at every forward call.
    A ["fast_naive"] layer built with leak 9/10 keeps that leak in its
    strategy when the stored leak becomes 1/2, and its forward call then
    hands 1/2 to the strategy, where it handed 9/10 before. *)
Lemma leak_read_at_every_forward :
  exists self,
    BaseNeurons.__init__ CBaseNeurons "fast_naive" 5 [9 # 10]%Q true
      Reference.heaviside 100 ∅ = Ok self
    /\ BaseNeurons._method_func
         (BaseNeurons.set_beta_data (Tensor.of_list [1 # 2]%Q) self)
       = Some (MethodFastNaive 5 Reference.heaviside 100 (Tensor.of_list [9 # 10]%Q))
    /\ fst (BaseNeurons.forward (H := leak_echo) (Tensor.mk [1; 1; 1] [1%Q]) None PNone
              self)
       = Ok (Tensor.of_list [9 # 10]%Q)
    /\ fst (BaseNeurons.forward (H := leak_echo) (Tensor.mk [1; 1; 1] [1%Q]) None PNone
              (BaseNeurons.set_beta_data (Tensor.of_list [1 # 2]%Q) self))
       = Ok (Tensor.of_list [1 # 2]%Q).
Proof. eexists. repeat split. Qed.

(** C6. With the ["standard"] method the strategy receives a source of
    recurrent current that is the object's [get_recurrent_current]
    exactly when the keyword argument ["recurrent"] is given with a true
    value, and [None] otherwise, in particular when the argument is
    absent. *)
Theorem recurrent_source_optional
    (c : class) (t_len : Z) (beta_init : list Q) (beta_requires_grad : bool)
    (spike_func : SpikeFunc) (scale : Q) (kwargs : gmap string pyval) :
  exists self single_spike integrator source,
    BaseNeurons.__init__ c "standard" t_len beta_init beta_requires_grad spike_func
      scale kwargs = Ok self
    /\ BaseNeurons._method_func self
       = Some (MethodStandard t_len spike_func scale single_spike integrator source)
    /\ (kwargs !! "recurrent" = None -> source = None)
    /\ (forall v, kwargs !! "recurrent" = Some v ->
                  source = if truthy v then Some (get_recurrent_current c) else None)
    /\ (source = Some (get_recurrent_current c)
        <-> exists v, kwargs !! "recurrent" = Some v /\ truthy v = true)
    /\ (source = None
        <-> kwargs !! "recurrent" = None
            \/ exists v, kwargs !! "recurrent" = Some v /\ truthy v = false).
Proof.
  eexists _, _, _, (selected_source c kwargs).
  split; [apply init_standard|]. split; [reflexivity|].
  unfold selected_source, kwargs_get.
  destruct (kwargs !! "recurrent") as [w|].
  - change (default (PBool false) (Some w)) with w.
    split; [discriminate|]. split; [intros v [= <-]; reflexivity|].
    destruct (truthy w) eqn:Ew; split; split.
    + intros _. exists w. split; reflexivity || exact Ew.
    + reflexivity.
    + discriminate.
    + intros [Hn | (v & [= <-] & Hv)]; [discriminate | congruence].
    + discriminate.
    + intros (v & [= <-] & Hv). congruence.
    + intros _. right. exists w. split; reflexivity || exact Ew.
    + reflexivity.
  - change (default (PBool false) None) with (PBool false). cbn [truthy].
    split; [reflexivity|]. split; [discriminate|]. split; split.
    + discriminate.
    + intros (v & Hv & _). discriminate.
    + intros _. left. reflexivity.
    + reflexivity.
Qed.

Lemma kwargs_get_some (kwargs : gmap string pyval) (key : string) (dflt v : pyval) :
  kwargs !! key = Some v -> kwargs_get kwargs key dflt = v.
Proof. unfold kwargs_get. intros ->. reflexivity. Qed.

Lemma kwargs_get_none (kwargs : gmap string pyval) (key : string) (dflt : pyval) :
  kwargs !! key = None -> kwargs_get kwargs key dflt = dflt.
Proof. unfold kwargs_get. intros ->. reflexivity. Qed.

(** A standard layer asked for recurrence holds the failing source. *)
Lemma init_standard_recurrent
    (c : class) (t_len : Z) (beta_init : list Q) (beta_requires_grad : bool)
    (spike_func : SpikeFunc) (scale : Q) (kwargs : gmap string pyval) (v : pyval) :
  kwargs !! "recurrent" = Some v -> truthy v = true ->
  exists self,
    BaseNeurons.__init__ c "standard" t_len beta_init beta_requires_grad spike_func
      scale kwargs = Ok self
    /\ holds_failing_source self.
Proof.
  intros Hk Hv. eexists. split; [apply init_standard|].
  unfold holds_failing_source. eexists _, _, _, _, _, (get_recurrent_current c).
  split.
  - cbn. unfold selected_source. rewrite (kwargs_get_some _ _ _ _ Hk), Hv. reflexivity.
  - intros spikes. destruct c; reflexivity.
Qed.


(** On the reference strategy, a forward call of such a layer over more
    than one timestep asks the source and raises. *)
Example recurrent_forward_raises :
  exists self,
    BaseNeurons.__init__ CBaseNeurons "standard" 3 [9 # 10]%Q false
      Reference.heaviside 100 {["recurrent" := PBool true]} = Ok self
    /\ fst (BaseNeurons.forward (H := Reference.methods)
              (Tensor.mk [1; 1; 3] [1; 1; 1]%Q) None PNone self)
       = Raise NotImplementedError.
Proof. eexists. split; [reflexivity|]. vm_compute. reflexivity. Qed.

(** C4, as the code has it. With ["fast_naive"] the ["recurrent"]
    keyword argument is not consulted: whatever its value, construction
    succeeds and gives the very layer, with the very [MethodFastNaive]
    strategy, that it gives without the argument. *)
Theorem recurrent_flag_ignored_by_fast_naive
    (c : class) (t_len : Z) (beta_init : list Q) (beta_requires_grad : bool)
    (spike_func : SpikeFunc) (scale : Q) (kwargs : gmap string pyval) (flag : pyval) :
  exists self,
    BaseNeurons.__init__ c "fast_naive" t_len beta_init beta_requires_grad spike_func
      scale (<["recurrent" := flag]> kwargs) = Ok self
    /\ BaseNeurons.__init__ c "fast_naive" t_len beta_init beta_requires_grad
         spike_func scale (delete "recurrent" kwargs) = Ok self
    /\ BaseNeurons._method_func self
       = Some (MethodFastNaive t_len spike_func scale
                 (Tensor.clamp 0 1 (Tensor.of_list beta_init))).
Proof. eexists. repeat split; apply init_fast_naive. Qed.

(** C4, refuted as stated: a ["fast_naive"] layer asked for recurrence is
    constructed without error, is the layer constructed without the
    request, and its forward call on the reference strategy returns a
    spike trace. *)
Lemma recurrent_with_fast_naive_accepted :
  exists self,
    BaseNeurons.__init__ CBaseNeurons "fast_naive" 5 [9 # 10]%Q false
      Reference.heaviside 100 {["recurrent" := PBool true]} = Ok self
    /\ BaseNeurons.__init__ CBaseNeurons "fast_naive" 5 [9 # 10]%Q false
         Reference.heaviside 100 ∅ = Ok self
    /\ fst (BaseNeurons.forward (H := Reference.methods)
              (Tensor.mk [1; 1; 5] [1 # 2; 1 # 2; 1 # 2; 1 # 2; 1 # 2]%Q) None PNone self)
       = Ok (Tensor.mk [1; 1; 5] [0; 0; 1; 1; 1]%Q).
Proof. eexists. split; [reflexivity|]. split; [reflexivity|]. vm_compute. reflexivity. Qed.

(** ** The hyper-parameter snapshot *)

(** C5, as the code has it. The snapshot of a layer of any of the five
    classes holds the method, the timestep count, the leak
    initialisation, the leak-trainability flag and, under ["spike_func"],
    the class name of the spike-function object; the classes with a
    current transform add their sizes. Every other key, ["scale"] among
    them, is as the base class's dictionary has it. Taking the snapshot
    leaves the object as it was. *)
Theorem hyperparams_entries (super_hyperparams : gmap string pyval) :
  (forall self : BaseNeurons.t,
     exists hp : gmap string pyval,
       BaseNeurons.hyperparams super_hyperparams self = (Ok hp, self)
       /\ base_entries super_hyperparams hp self
       /\ forall k : string,
            k ∉ ["method"; "t_len"; "beta_init"; "beta_requires_grad"; "spike_func"] ->
            hp !! k = super_hyperparams !! k)
  /\ (forall self : LinearNeurons.t,
        exists hp : gmap string pyval,
          LinearNeurons.hyperparams super_hyperparams self = (Ok hp, self)
          /\ base_entries super_hyperparams hp (LinearNeurons.base self)
          /\ hp !! "n_in" = Some (PInt (Z.of_nat (LinearNeurons._n_in self)))
          /\ hp !! "n_out" = Some (PInt (Z.of_nat (LinearNeurons._n_out self))))
  /\ (forall self : ConvNeurons.t,
        exists hp : gmap string pyval,
          ConvNeurons.hyperparams super_hyperparams self = (Ok hp, self)
          /\ base_entries super_hyperparams hp (ConvNeurons.base self)
          /\ hp !! "n_in" = Some (PInt (Z.of_nat (ConvNeurons._n_in self)))
          /\ hp !! "n_out" = Some (PInt (Z.of_nat (ConvNeurons._n_out self)))
          /\ hp !! "kernel" = Some (PInt (Z.of_nat (ConvNeurons._kernel self)))
          /\ hp !! "stride" = Some (PInt (Z.of_nat (ConvNeurons._stride self))))
  /\ (forall self : PolyNeurons.t,
        exists hp : gmap string pyval,
          PolyNeurons.hyperparams super_hyperparams self = (Ok hp, self)
          /\ base_entries super_hyperparams hp (PolyNeurons.base self)
          /\ hp !! "n_in" = Some (PInt (Z.of_nat (PolyNeurons._n_in self)))
          /\ hp !! "n_out" = Some (PInt (Z.of_nat (PolyNeurons._n_out self))))
  /\ (forall self : PolyConvNeurons.t,
        exists hp : gmap string pyval,
          PolyConvNeurons.hyperparams super_hyperparams self = (Ok hp, self)
          /\ base_entries super_hyperparams hp (PolyConvNeurons.base self)
          /\ hp !! "n_in" = Some (PInt (Z.of_nat (PolyConvNeurons._n_in self)))
          /\ hp !! "n_out" = Some (PInt (Z.of_nat (PolyConvNeurons._n_out self)))
          /\ hp !! "kernel" = Some (PInt (Z.of_nat (PolyConvNeurons._kernel self)))
          /\ hp !! "stride" = Some (PInt (Z.of_nat (PolyConvNeurons._stride self)))).
Proof.
  split; [|repeat split].
  - intros self. eexists. split; [reflexivity|]. split.
    + unfold base_entries. repeat split; by simplify_map_eq.
    + intros k Hk. rewrite !not_elem_of_cons in Hk.
      destruct Hk as (? & ? & ? & ? & ? & _). by simplify_map_eq.
  - intros []. eexists. split; [reflexivity|].
    unfold base_entries. cbn. repeat split; by simplify_map_eq.
  - intros []. eexists. split; [reflexivity|].
    unfold base_entries. cbn. repeat split; by simplify_map_eq.
  - intros []. eexists. split; [reflexivity|].
    unfold base_entries. cbn. repeat split; by simplify_map_eq.
  - intros []. eexists. split; [reflexivity|].
    unfold base_entries. cbn. repeat split; by simplify_map_eq.
Qed.

(** C5, refuted as stated: two layers that differ in the scale alone have
    the same snapshot, and it has no entry for the scale. The base
    class's dictionary is taken to hold the class name. *)
Lemma hyperparams_without_scale :
  let hp0 : gmap string pyval := {["name" := PStr "BaseNeurons"]} in
  exists (a b : BaseNeurons.t) (hp : gmap string pyval),
    BaseNeurons.__init__ CBaseNeurons "standard" 5 [9 # 10]%Q false
      Reference.heaviside 10 ∅ = Ok a
    /\ BaseNeurons.__init__ CBaseNeurons "standard" 5 [9 # 10]%Q false
         Reference.heaviside 100 ∅ = Ok b
    /\ BaseNeurons.hyperparams hp0 a = (Ok hp, a)
    /\ BaseNeurons.hyperparams hp0 b = (Ok hp, b)
    /\ hp !! "scale" = None.
Proof.
  cbv zeta. eexists _, _, _. split; [reflexivity|]. split; [reflexivity|].
  split; [reflexivity|]. split; [reflexivity|]. by simplify_map_eq.
Qed.

(** ** Forward calls and the state of the strategy *)

Section CarryingFacts.
Context `{Carrying.StatefulMethods}.

Hypothesis Hkeeps : Carrying.keeps_nothing.

Lemma invoke_eq (b : BaseNeurons.t) (st : Carrying.carried) x beta v_init return_type :
  Carrying.invoke (BaseNeurons._method_func b) x beta v_init return_type (b, st)
  = (strategy_result (H := Carrying.frozen st) b x beta v_init return_type, (b, st)).
Proof.
  unfold Carrying.invoke, strategy_result.
  destruct (BaseNeurons._method_func b) as [mf|]; [|reflexivity].
  cbn [fst snd Carrying.frozen method_call].
  pose proof (Hkeeps mf x beta v_init return_type st) as Hst.
  destruct (Carrying.call mf x beta v_init return_type st) as [res st'].
  cbn [fst snd] in *. subst st'. reflexivity.
Qed.

Lemma base_carrying_eq (b : BaseNeurons.t) (st : Carrying.carried) x v_init return_type :
  Carrying.base_forward x v_init return_type (b, st)
  = (fst (BaseNeurons.forward (H := Carrying.frozen st) x v_init return_type b), (b, st)).
Proof.
  rewrite base_forward_eq. cbn [fst].
  unfold Carrying.base_forward, mbind, M_bind, st_bind, Carrying.own, zoom, attr.
  cbn [fst snd]. rewrite beta_eq. apply invoke_eq.
Qed.

Lemma linear_carrying_eq (o : LinearNeurons.t) (st : Carrying.carried)
    x v_init return_type :
  Carrying.linear_forward x v_init return_type (o, st)
  = (fst (LinearNeurons.forward (H := Carrying.frozen st) x v_init return_type o),
     (o, st)).
Proof.
  unfold Carrying.linear_forward, LinearNeurons.forward, mbind, M_bind, st_bind, attr,
    lift, Carrying.own, Carrying.super_of, LinearNeurons.super, zoom, mret, M_ret,
    st_ret.
  cbn [fst snd].
  destruct (Tensor.permute [0; 2; 1] x) as [xp|e]; [|reflexivity].
  destruct (Linear.call (LinearNeurons._to_current o) xp) as [cur|e]; [|reflexivity].
  destruct (Tensor.permute [0; 2; 1] cur) as [current|e]; [|reflexivity].
  rewrite base_carrying_eq, base_forward_eq. cbn [fst snd].
  destruct o. cbn [LinearNeurons.base LinearNeurons.set_base].
  destruct (strategy_result _ _ _ _ _); reflexivity.
Qed.

Lemma conv_carrying_eq (o : ConvNeurons.t) (st : Carrying.carried)
    x v_init return_type :
  Carrying.conv_forward x v_init return_type (o, st)
  = (fst (ConvNeurons.forward (H := Carrying.frozen st) x v_init return_type o),
     (o, st)).
Proof.
  unfold Carrying.conv_forward, ConvNeurons.forward, mbind, M_bind, st_bind, attr,
    lift, Carrying.own, Carrying.super_of, ConvNeurons.super, zoom, mret, M_ret,
    st_ret.
  cbn [fst snd].
  destruct (Conv3d.call (ConvNeurons._to_current o) x) as [cur|e]; [|reflexivity].
  destruct (unpack5 (Tensor.shape cur)) as [[[[[b n] t] h] w]|e]; [|reflexivity].
  destruct (Tensor.permute [0; 1; 3; 4; 2] cur) as [p|e]; [|reflexivity].
  destruct (Tensor.flatten 1 3 p) as [flat|e]; [|reflexivity].
  cbv beta iota. cbn [fst snd]. rewrite base_carrying_eq, base_forward_eq.
  cbn [fst snd].
  destruct o. cbn [ConvNeurons.base ConvNeurons.set_base ConvNeurons._flatten].
  destruct (strategy_result _ _ _ _ _) as [spikes|e]; [|reflexivity].
  cbn [fst snd ConvNeurons._flatten].
  destruct (negb (truthy _flatten)); [|reflexivity].
  destruct (Tensor.view [b; n; h; w; t] spikes) as [vw|e]; [|reflexivity].
  destruct (Tensor.permute [0; 1; 4; 2; 3] vw); reflexivity.
Qed.

Lemma poly_carrying_eq (o : PolyNeurons.t) (st : Carrying.carried)
    x v_init return_type :
  Carrying.poly_forward x v_init return_type (o, st)
  = (fst (PolyNeurons.forward (H := Carrying.frozen st) x v_init return_type o),
     (o, st)).
Proof.
  unfold Carrying.poly_forward, PolyNeurons.forward, PolyNeurons._to_current, mbind,
    M_bind, st_bind, attr, lift, Carrying.own, Carrying.super_of, PolyNeurons.super,
    zoom, mret, M_ret, st_ret.
  cbn [fst snd].
  destruct (Tensor.permute [0; 2; 1] x) as [xp|e]; [|reflexivity].
  destruct (Linear.call (PolyNeurons.fc2 o) xp) as [a|e]; [|reflexivity].
  destruct (Linear.call (PolyNeurons.fc1 o) xp) as [b|e]; [|reflexivity].
  destruct (Tensor.mul (Tensor.add_scalar a 1) b) as [cur|e]; [|reflexivity].
  cbn [fst snd].
  destruct (Tensor.permute [0; 2; 1] cur) as [current|e]; [|reflexivity].
  rewrite base_carrying_eq, base_forward_eq. cbn [fst snd].
  destruct o. cbn [PolyNeurons.base PolyNeurons.set_base].
  destruct (strategy_result _ _ _ _ _); reflexivity.
Qed.

Lemma polyconv_carrying_eq (o : PolyConvNeurons.t) (st : Carrying.carried)
    x v_init return_type :
  Carrying.polyconv_forward x v_init return_type (o, st)
  = (fst (PolyConvNeurons.forward (H := Carrying.frozen st) x v_init return_type o),
     (o, st)).
Proof.
  unfold Carrying.polyconv_forward, PolyConvNeurons.forward,
    PolyConvNeurons._to_current, mbind, M_bind, st_bind, attr, lift, Carrying.own,
    Carrying.super_of, PolyConvNeurons.super, zoom, mret, M_ret, st_ret.
  cbn [fst snd].
  destruct (Conv3d.call (PolyConvNeurons.conv_1 o) x) as [a|e]; [|reflexivity].
  destruct (Conv3d.call (PolyConvNeurons.conv_2 o) x) as [c|e]; [|reflexivity].
  destruct (Tensor.mul a (Tensor.radd_scalar 1 c)) as [cur|e]; [|reflexivity].
  cbn [fst snd].
  destruct (unpack5 (Tensor.shape cur)) as [[[[[b n] t] h] w]|e]; [|reflexivity].
  destruct (Tensor.permute [0; 1; 3; 4; 2] cur) as [p|e]; [|reflexivity].
  destruct (Tensor.flatten 1 3 p) as [flat|e]; [|reflexivity].
  cbv beta iota. cbn [fst snd]. rewrite base_carrying_eq, base_forward_eq.
  cbn [fst snd].
  destruct o.
  cbn [PolyConvNeurons.base PolyConvNeurons.set_base PolyConvNeurons._flatten].
  destruct (strategy_result _ _ _ _ _) as [spikes|e]; [|reflexivity].
  cbn [fst snd PolyConvNeurons._flatten].
  destruct (negb (truthy _flatten)); [|reflexivity].
  destruct (Tensor.view [b; n; h; w; t] spikes) as [vw|e]; [|reflexivity].
  destruct (Tensor.permute [0; 1; 4; 2; 3] vw); reflexivity.
Qed.

End CarryingFacts.



(** The assumption is needed: a strategy that carries a potential over
    makes a second forward call, with the same inputs on the same layer,
    return something else. *)
Example carried_potential_is_noticed :
  exists self,
    BaseNeurons.__init__ CBaseNeurons "standard" 1 [9 # 10]%Q false
      Reference.heaviside 100 ∅ = Ok self
    /\ fst (Carrying.base_forward (H := Carrying.carrying)
              (Tensor.mk [1; 1; 1] [1%Q]) None PNone (self, 0%Q))
       = Ok (Tensor.mk [1] [1%Q])
    /\ fst (Carrying.base_forward (H := Carrying.carrying)
              (Tensor.mk [1; 1; 1] [1%Q]) None PNone
              (snd (Carrying.base_forward (H := Carrying.carrying)
                      (Tensor.mk [1; 1; 1] [1%Q]) None PNone (self, 0%Q))))
       = Ok (Tensor.mk [1] [2%Q]).
Proof. eexists. repeat split. Qed.

(** ** The neuron axis of a convolutional layer *)

Section Layout.
Import Tensor.

Variables B N T Hh W : nat.

Lemma valid5 s0 s1 s2 s3 s4 i0 i1 i2 i3 i4 :
  i0 < s0 -> i1 < s1 -> i2 < s2 -> i3 < s3 -> i4 < s4 ->
  valid [s0; s1; s2; s3; s4] [i0; i1; i2; i3; i4].
Proof. intros. repeat constructor; assumption. Qed.

Lemma valid5_inv s0 s1 s2 s3 s4 idx :
  valid [s0; s1; s2; s3; s4] idx ->
  exists i0 i1 i2 i3 i4,
    idx = [i0; i1; i2; i3; i4]
    /\ i0 < s0 /\ i1 < s1 /\ i2 < s2 /\ i3 < s3 /\ i4 < s4.
Proof.
  intros Hv.
  apply valid_cons_inv in Hv as (i0 & r0 & -> & ? & Hv).
  apply valid_cons_inv in Hv as (i1 & r1 & -> & ? & Hv).
  apply valid_cons_inv in Hv as (i2 & r2 & -> & ? & Hv).
  apply valid_cons_inv in Hv as (i3 & r3 & -> & ? & Hv).
  apply valid_cons_inv in Hv as (i4 & r4 & -> & ? & Hv).
  apply valid_nil_inv in Hv as ->. eauto 12.
Qed.

(** [permute(0, 1, 3, 4, 2)] moves the time axis behind the spatial axes. *)
Lemma permute_time_last (cur : Tensor.t) :
  shape cur = [B; N; T; Hh; W] ->
  exists p,
    permute [0; 1; 3; 4; 2] cur = Ok p
    /\ shape p = [B; N; Hh; W; T]
    /\ wf p
    /\ forall b c t i j, b < B -> c < N -> t < T -> i < Hh -> j < W ->
         get p [b; c; i; j; t] = get cur [b; c; t; i; j].
Proof.
  destruct cur as [s d]. cbn [shape]. intros ->.
  eexists. split; [reflexivity|]. split; [reflexivity|].
  split; [apply wf_tabulate|].
  intros b c t i j Hb Hc Ht Hi Hj. cbn [map nth].
  rewrite get_tabulate by (apply valid5; assumption). reflexivity.
Qed.

(** [permute(0, 1, 4, 2, 3)] moves the time axis back before them. *)
Lemma permute_time_back (v : Tensor.t) :
  shape v = [B; N; Hh; W; T] ->
  exists res,
    permute [0; 1; 4; 2; 3] v = Ok res
    /\ shape res = [B; N; T; Hh; W]
    /\ wf res
    /\ forall b c t i j, b < B -> c < N -> t < T -> i < Hh -> j < W ->
         get res [b; c; t; i; j] = get v [b; c; i; j; t].
Proof.
  destruct v as [s d]. cbn [shape]. intros ->.
  eexists. split; [reflexivity|]. split; [reflexivity|].
  split; [apply wf_tabulate|].
  intros b c t i j Hb Hc Ht Hi Hj. cbn [map nth].
  rewrite get_tabulate by (apply valid5; assumption). reflexivity.
Qed.

(** [flatten(start_dim=1, end_dim=3)] merges channel, row and column into
    the neuron axis: neuron [c * Hh * W + i * W + j]. *)
Lemma flatten_neurons (p : Tensor.t) :
  shape p = [B; N; Hh; W; T] ->
  exists flat,
    flatten 1 3 p = Ok flat
    /\ shape flat = [B; N * Hh * W; T]
    /\ data flat = data p
    /\ forall b c t i j,
         get flat [b; c * Hh * W + i * W + j; t] = get p [b; c; i; j; t].
Proof.
  destruct p as [s d]. cbn [shape]. intros ->.
  eexists. split; [reflexivity|].
  split; [cbn; do 2 f_equal; ring|]. split; [reflexivity|].
  intros b c t i j. unfold get. cbn. f_equal. ring.
Qed.

(** [view(b, n, h, w, t)] splits the neuron axis again. *)
Lemma view_neurons (out : Tensor.t) :
  shape out = [B; N * Hh * W; T] ->
  exists v,
    view [B; N; Hh; W; T] out = Ok v
    /\ shape v = [B; N; Hh; W; T]
    /\ data v = data out
    /\ forall b c t i j,
         get v [b; c; i; j; t] = get out [b; c * Hh * W + i * W + j; t].
Proof.
  destruct out as [s d]. cbn [shape]. intros ->.
  unfold view. cbn [shape].
  replace (numel [B; N; Hh; W; T] =? numel [B; N * Hh * W; T]) with true
    by (symmetry; apply Nat.eqb_eq; cbn; ring).
  eexists. split; [reflexivity|]. split; [reflexivity|]. split; [reflexivity|].
  intros b c t i j. unfold get. cbn. f_equal. ring.
Qed.

(** View-and-permute undoes permute-and-flatten. *)
Lemma restore_layout (cur : Tensor.t) :
  shape cur = [B; N; T; Hh; W] -> wf cur ->
  (p ← permute [0; 1; 3; 4; 2] cur;
   flat ← flatten 1 3 p;
   v ← view [B; N; Hh; W; T] flat;
   permute [0; 1; 4; 2; 3] v) = Ok cur.
Proof.
  intros Hs Hwf.
  destruct (permute_time_last cur Hs) as (p & Ep & Hsp & _ & Hp).
  destruct (flatten_neurons p Hsp) as (flat & Ef & Hsf & _ & Hf).
  destruct (view_neurons flat Hsf) as (v & Ev & Hsv & _ & Hv).
  destruct (permute_time_back v Hsv) as (res & Er & Hsr & Hwr & Hr).
  rewrite Ep. cbn. rewrite Ef. cbn. rewrite Ev. cbn. rewrite Er. f_equal.
  apply tensor_ext; [exact Hwr | exact Hwf | congruence |].
  intros idx Hidx. rewrite Hsr in Hidx.
  apply valid5_inv in Hidx as (b & c & t & i & j & -> & ? & ? & ? & ? & ?).
  rewrite Hr, Hv, Hf, Hp by assumption. reflexivity.
Qed.

End Layout.

(** ** Forward of the convolutional layers *)

Section ConvForward.
Context `{Methods}.
Import Tensor.

Variables (x : Tensor.t) (v_init : option Tensor.t) (return_type : pyval).
Variables (cur flat out : Tensor.t) (B N T Hh W : nat).

Hypothesis Hshape : shape cur = [B; N; T; Hh; W].
Hypothesis Hflat : (p ← permute [0; 1; 3; 4; 2] cur; flatten 1 3 p) = Ok flat.
Hypothesis Hout : shape out = [B; N * Hh * W; T].

Lemma conv_forward_layout (self : ConvNeurons.t) :
  truthy (ConvNeurons._flatten self) = false ->
  Conv3d.call (ConvNeurons._to_current self) x = Ok cur ->
  strategy_result (ConvNeurons.base self) flat
    (clamp 0 1 (p_data (BaseNeurons._beta (ConvNeurons.base self))))
    v_init return_type = Ok out ->
  exists res,
    fst (ConvNeurons.forward x v_init return_type self) = Ok res
    /\ shape res = [B; N; T; Hh; W]
    /\ forall b c t i j, b < B -> c < N -> t < T -> i < Hh -> j < W ->
         get res [b; c; t; i; j] = get out [b; c * Hh * W + i * W + j; t].
Proof.
  intros Hflag Hcall Hrun.
  destruct (permute_time_last B N T Hh W cur Hshape) as (p & Ep & Hsp & _ & _).
  rewrite Ep in Hflat. cbn in Hflat.
  destruct (view_neurons B N T Hh W out Hout) as (vw & Ev & Hsv & _ & Hv).
  destruct (permute_time_back B N T Hh W vw Hsv) as (res & Er & Hsr & _ & Hr).
  exists res. split; [|split; [exact Hsr|]].
  - unfold ConvNeurons.forward, mbind, M_bind, st_bind, attr, lift,
      ConvNeurons.super, zoom.
    rewrite Hcall, Hshape. cbn [unpack5]. rewrite Ep, Hflat, base_forward_eq, Hrun.
    cbn [ConvNeurons._flatten ConvNeurons.set_base]. rewrite Hflag.
    cbn [negb]. rewrite Ev, Er. reflexivity.
  - intros b c t i j Hb Hc Ht Hi Hj. rewrite Hr by assumption. apply Hv.
Qed.

Lemma polyconv_to_current_eq (self : PolyConvNeurons.t) :
  PolyConvNeurons._to_current x self
  = (a ← Conv3d.call (PolyConvNeurons.conv_1 self) x;
     b ← Conv3d.call (PolyConvNeurons.conv_2 self) x;
     mul a (radd_scalar 1 b), self).
Proof.
  unfold PolyConvNeurons._to_current, mbind, M_bind, st_bind, attr, lift,
    result_bind, rbind.
  destruct (Conv3d.call (PolyConvNeurons.conv_1 self) x); [|reflexivity].
  destruct (Conv3d.call (PolyConvNeurons.conv_2 self) x); reflexivity.
Qed.

Lemma polyconv_forward_layout (self : PolyConvNeurons.t) :
  truthy (PolyConvNeurons._flatten self) = false ->
  fst (PolyConvNeurons._to_current x self) = Ok cur ->
  strategy_result (PolyConvNeurons.base self) flat
    (clamp 0 1 (p_data (BaseNeurons._beta (PolyConvNeurons.base self))))
    v_init return_type = Ok out ->
  exists res,
    fst (PolyConvNeurons.forward x v_init return_type self) = Ok res
    /\ shape res = [B; N; T; Hh; W]
    /\ forall b c t i j, b < B -> c < N -> t < T -> i < Hh -> j < W ->
         get res [b; c; t; i; j] = get out [b; c * Hh * W + i * W + j; t].
Proof.
  intros Hflag Hcall Hrun.
  destruct (permute_time_last B N T Hh W cur Hshape) as (p & Ep & Hsp & _ & _).
  rewrite Ep in Hflat. cbn in Hflat.
  destruct (view_neurons B N T Hh W out Hout) as (vw & Ev & Hsv & _ & Hv).
  destruct (permute_time_back B N T Hh W vw Hsv) as (res & Er & Hsr & _ & Hr).
  exists res. split; [|split; [exact Hsr|]].
  - rewrite polyconv_to_current_eq in Hcall. cbn [fst] in Hcall.
    unfold PolyConvNeurons.forward. unfold mbind at 1, M_bind at 1, st_bind at 1.
    rewrite polyconv_to_current_eq, Hcall.
    unfold mbind, M_bind, st_bind, attr, lift, PolyConvNeurons.super, zoom.
    rewrite Hshape. cbn [unpack5]. rewrite Ep, Hflat, base_forward_eq, Hrun.
    cbn [PolyConvNeurons._flatten PolyConvNeurons.set_base]. rewrite Hflag.
    cbn [negb]. rewrite Ev, Er. reflexivity.
  - intros b c t i j Hb Hc Ht Hi Hj. rewrite Hr by assumption. apply Hv.
Qed.

End ConvForward.

(** ** Elementwise operations *)

Section Elementwise.
Import Tensor.
Local Open Scope Q_scope.

Lemma nth_map_in (f : Q -> Q) (l : list Q) (k : nat) :
  (k < length l)%nat -> nth k (map f l) 0 = f (nth k l 0).
Proof.
  intros Hk. rewrite (nth_indep _ 0 (f 0)) by (rewrite length_map; exact Hk).
  apply List.map_nth.
Qed.

Lemma nth_zip_mul (l1 l2 : list Q) :
  forall k, (k < length l1)%nat -> (k < length l2)%nat ->
            nth k (zip_mul l1 l2) 0 = nth k l1 0 * nth k l2 0.
Proof.
  revert l2. induction l1 as [|a l1 IH]; intros [|b l2] k H1 H2;
    cbn [length] in *; try lia.
  destruct k as [|k]; [reflexivity|]. cbn [zip_mul nth]. apply IH; lia.
Qed.

Lemma length_zip_mul (l1 l2 : list Q) :
  length l1 = length l2 -> length (zip_mul l1 l2) = length l1.
Proof.
  revert l2. induction l1 as [|a l1 IH]; intros [|b l2] E; cbn in *; try lia.
  rewrite IH; lia.
Qed.

Lemma wf_add_scalar (a : Tensor.t) (c : Q) : wf a -> wf (add_scalar a c).
Proof. unfold wf, add_scalar. cbn. rewrite length_map. tauto. Qed.

Lemma wf_radd_scalar (c : Q) (a : Tensor.t) : wf a -> wf (radd_scalar c a).
Proof. unfold wf, radd_scalar. cbn. rewrite length_map. tauto. Qed.

Lemma get_add_scalar (a : Tensor.t) (c : Q) (idx : list nat) :
  wf a -> valid (shape a) idx -> get (add_scalar a c) idx = get a idx + c.
Proof.
  intros Hwf Hv. unfold get, add_scalar. cbn [shape data].
  apply (nth_map_in (fun v => v + c)). rewrite Hwf. apply ravel_lt, Hv.
Qed.

Lemma get_radd_scalar (c : Q) (a : Tensor.t) (idx : list nat) :
  wf a -> valid (shape a) idx -> get (radd_scalar c a) idx = c + get a idx.
Proof.
  intros Hwf Hv. unfold get, radd_scalar. cbn [shape data].
  apply (nth_map_in (fun v => c + v)). rewrite Hwf. apply ravel_lt, Hv.
Qed.

Lemma mul_entries (a b : Tensor.t) :
  wf a -> wf b -> shape a = shape b ->
  exists m,
    mul a b = Ok m
    /\ shape m = shape a
    /\ wf m
    /\ forall idx, valid (shape a) idx -> get m idx = get a idx * get b idx.
Proof.
  intros Ha Hb Hs. unfold mul. rewrite decide_True by exact Hs.
  eexists. split; [reflexivity|]. split; [reflexivity|]. split.
  - unfold wf in *. cbn [shape data].
    rewrite length_zip_mul by (rewrite Ha, Hb, Hs; reflexivity). exact Ha.
  - intros idx Hv. unfold get. cbn [shape data]. rewrite <- Hs.
    pose proof (ravel_lt _ _ Hv) as Hlt.
    apply nth_zip_mul; [rewrite Ha | rewrite Hb, <- Hs]; exact Hlt.
Qed.

Lemma sum_over_ext (n : nat) (f g : nat -> Q) :
  (forall i, (i < n)%nat -> f i = g i) -> Linear.sum_over n f = Linear.sum_over n g.
Proof.
  intros Hfg. unfold Linear.sum_over. f_equal.
  apply List.map_ext_in. intros i Hi. apply in_seq in Hi. apply Hfg. lia.
Qed.

End Elementwise.

(** C7. With flattening off, the forward call of [ConvNeurons] and of
    [PolyConvNeurons] on a current of shape [B x N x T x Hh x W] hands
    the strategy a trace of shape [B x N*Hh*W x T] whose neuron
    [c*Hh*W + i*W + j] is channel [c], row [i], column [j]; from a
    strategy output [out] of that shape it returns a tensor of shape
    [B x N x T x Hh x W] whose entry at [(b, c, t, i, j)] is the entry of
    [out] at [(b, c*Hh*W + i*W + j, t)]. The view and permute after the
    strategy undo the permute and flatten before it. *)
Theorem conv_forward_restores_layout `{Methods}
    (x : Tensor.t) (v_init : option Tensor.t) (return_type : pyval)
    (cur flat out : Tensor.t) (B N T Hh W : nat) :
  Tensor.shape cur = [B; N; T; Hh; W] ->
  (p ← Tensor.permute [0; 1; 3; 4; 2] cur; Tensor.flatten 1 3 p) = Ok flat ->
  Tensor.shape out = [B; N * Hh * W; T] ->
  (Tensor.shape flat = [B; N * Hh * W; T]
   /\ forall b c t i j, b < B -> c < N -> t < T -> i < Hh -> j < W ->
        Tensor.get flat [b; c * Hh * W + i * W + j; t] = Tensor.get cur [b; c; t; i; j])
  /\ (forall self : ConvNeurons.t,
        truthy (ConvNeurons._flatten self) = false ->
        Conv3d.call (ConvNeurons._to_current self) x = Ok cur ->
        strategy_result (ConvNeurons.base self) flat
          (Tensor.clamp 0 1 (p_data (BaseNeurons._beta (ConvNeurons.base self))))
          v_init return_type = Ok out ->
        exists res,
          fst (ConvNeurons.forward x v_init return_type self) = Ok res
          /\ Tensor.shape res = [B; N; T; Hh; W]
          /\ forall b c t i j, b < B -> c < N -> t < T -> i < Hh -> j < W ->
               Tensor.get res [b; c; t; i; j]
               = Tensor.get out [b; c * Hh * W + i * W + j; t])
  /\ (forall self : PolyConvNeurons.t,
        truthy (PolyConvNeurons._flatten self) = false ->
        fst (PolyConvNeurons._to_current x self) = Ok cur ->
        strategy_result (PolyConvNeurons.base self) flat
          (Tensor.clamp 0 1 (p_data (BaseNeurons._beta (PolyConvNeurons.base self))))
          v_init return_type = Ok out ->
        exists res,
          fst (PolyConvNeurons.forward x v_init return_type self) = Ok res
          /\ Tensor.shape res = [B; N; T; Hh; W]
          /\ forall b c t i j, b < B -> c < N -> t < T -> i < Hh -> j < W ->
               Tensor.get res [b; c; t; i; j]
               = Tensor.get out [b; c * Hh * W + i * W + j; t])
  /\ (Tensor.wf cur ->
      (v ← Tensor.view [B; N; Hh; W; T] flat; Tensor.permute [0; 1; 4; 2; 3] v)
      = Ok cur).
Proof.
  intros Hshape Hflat Hout. split; [|split; [|split]].
  - destruct (permute_time_last B N T Hh W cur Hshape) as (p & Ep & Hsp & _ & Hp).
    destruct (flatten_neurons B N T Hh W p Hsp) as (fl & Ef & Hsf & _ & Hf).
    rewrite Ep in Hflat. cbn in Hflat. rewrite Ef in Hflat. injection Hflat as <-.
    split; [exact Hsf|]. intros b c t i j ? ? ? ? ?. rewrite Hf. apply Hp; assumption.
  - intros self. apply conv_forward_layout; assumption.
  - intros self. apply polyconv_forward_layout; assumption.
  - intros Hwf. pose proof (restore_layout B N T Hh W cur Hshape Hwf) as Hr.
    destruct (Tensor.permute [0; 1; 3; 4; 2] cur) as [p|e]; [|discriminate].
    cbn in Hflat, Hr. rewrite Hflat in Hr. exact Hr.
Qed.

Lemma conv_forward_restores_layout_witness :
  exists res,
    fst (ConvNeurons.forward (H := Reference.methods) Sample.image None PNone
           Sample.conv_layer) = Ok res
    /\ Tensor.shape res = [1; 1; 2; 2; 2]
    /\ forall b c t i j, b < 1 -> c < 1 -> t < 2 -> i < 2 -> j < 2 ->
         Tensor.get res [b; c; t; i; j]
         = Tensor.get Sample.spikes [b; c * 2 * 2 + i * 2 + j; t].
Proof.
  destruct (conv_forward_restores_layout (H := Reference.methods)
              Sample.image None PNone Sample.current Sample.flat Sample.spikes
              1 1 2 2 2) as (_ & Hconv & _); [reflexivity | reflexivity | reflexivity |].
  apply (Hconv Sample.conv_layer); reflexivity.
Defined.

(** ** The polynomial current *)

Section Poly.
Context `{Methods}.
Import Tensor.

Lemma valid3 s0 s1 s2 i0 i1 i2 :
  i0 < s0 -> i1 < s1 -> i2 < s2 -> valid [s0; s1; s2] [i0; i1; i2].
Proof. intros. repeat constructor; assumption. Qed.

(** [permute(0, 2, 1)] exchanges the last two axes. *)
Lemma permute_swap (x : Tensor.t) (s0 s1 s2 : nat) :
  shape x = [s0; s1; s2] ->
  exists xp,
    permute [0; 2; 1] x = Ok xp
    /\ shape xp = [s0; s2; s1]
    /\ wf xp
    /\ forall b i t, b < s0 -> i < s1 -> t < s2 ->
         get xp [b; t; i] = get x [b; i; t].
Proof.
  destruct x as [s d]. cbn [shape]. intros ->.
  eexists. split; [reflexivity|]. split; [reflexivity|].
  split; [apply wf_tabulate|].
  intros b i t Hb Hi Ht. cbn [map nth].
  rewrite get_tabulate by (apply valid3; assumption). reflexivity.
Qed.

(** [nn.Linear] on a trace of shape [batch x time x features]. *)
Lemma linear_call_entries (l : Linear.t) (xp : Tensor.t) (s0 s1 : nat) :
  shape xp = [s0; s1; Linear.in_features l] ->
  exists y,
    Linear.call l xp = Ok y
    /\ shape y = [s0; s1; Linear.out_features l]
    /\ wf y
    /\ forall b t o, b < s0 -> t < s1 -> o < Linear.out_features l ->
         get y [b; t; o]
         = Qplus
             (Linear.sum_over (Linear.in_features l)
                (fun i => Qmult (get xp [b; t; i]) (get (Linear.weight l) [o; i])))
             (get (Linear.bias l) [o]).
Proof.
  intros Hs. unfold Linear.call. rewrite Hs. cbn [last].
  rewrite Nat.eqb_refl. cbn [removelast app].
  eexists. split; [reflexivity|]. split; [reflexivity|].
  split; [apply wf_tabulate|].
  intros b t o Hb Ht Ho.
  rewrite get_tabulate by (apply valid3; assumption). reflexivity.
Qed.

Lemma poly_to_current_eq (self : PolyNeurons.t) (x : Tensor.t) :
  PolyNeurons._to_current x self
  = (a ← Linear.call (PolyNeurons.fc2 self) x;
     b ← Linear.call (PolyNeurons.fc1 self) x;
     mul (add_scalar a 1) b, self).
Proof.
  unfold PolyNeurons._to_current, mbind, M_bind, st_bind, attr, lift,
    result_bind, rbind.
  destruct (Linear.call (PolyNeurons.fc2 self) x); [|reflexivity].
  destruct (Linear.call (PolyNeurons.fc1 self) x); reflexivity.
Qed.

Lemma poly_forward_eq (self : PolyNeurons.t) x v_init return_type :
  PolyNeurons.forward x v_init return_type self
  = (current ← (xp ← permute [0; 2; 1] x;
                cur ← fst (PolyNeurons._to_current xp self);
                permute [0; 2; 1] cur);
     strategy_result (PolyNeurons.base self) current
       (clamp 0 1 (p_data (BaseNeurons._beta (PolyNeurons.base self))))
       v_init return_type,
     self).
Proof.
  unfold PolyNeurons.forward. unfold mbind at 1 2, M_bind at 1 2, st_bind at 1 2.
  unfold lift at 1. unfold mbind at 3 4, result_bind, rbind.
  destruct (permute [0; 2; 1] x) as [xp|e]; [|reflexivity].
  rewrite poly_to_current_eq. cbn [fst].
  destruct (a ← Linear.call (PolyNeurons.fc2 self) xp;
            b ← Linear.call (PolyNeurons.fc1 self) xp;
            mul (add_scalar a 1) b) as [cur|e]; [|reflexivity].
  unfold mbind, M_bind, st_bind, lift, PolyNeurons.super, zoom, mret, M_ret, st_ret.
  destruct (permute [0; 2; 1] cur) as [current|e]; [|reflexivity].
  rewrite base_forward_eq. destruct self. cbn [PolyNeurons.base PolyNeurons.set_base snd fst].
  destruct (strategy_result _ _ _ _ _); reflexivity.
Qed.

Lemma conv_call_wf (c : Conv3d.t) (z y : Tensor.t) :
  Conv3d.call c z = Ok y -> wf y.
Proof.
  unfold Conv3d.call. intros E.
  repeat case_match; try discriminate; injection E as <-; apply wf_tabulate.
Qed.

(** The product of the two convolutions, entry by entry. *)
Lemma polyconv_current_entries (pc : PolyConvNeurons.t) (z y1 y2 : Tensor.t) :
  Conv3d.call (PolyConvNeurons.conv_1 pc) z = Ok y1 ->
  Conv3d.call (PolyConvNeurons.conv_2 pc) z = Ok y2 ->
  shape y1 = shape y2 ->
  exists cur,
    fst (PolyConvNeurons._to_current z pc) = Ok cur
    /\ shape cur = shape y1
    /\ forall idx, valid (shape y1) idx ->
         get cur idx = Qmult (get y1 idx) (Qplus 1 (get y2 idx)).
Proof.
  intros E1 E2 Hs.
  pose proof (conv_call_wf _ _ _ E1) as Hw1.
  pose proof (conv_call_wf _ _ _ E2) as Hw2.
  destruct (mul_entries y1 (radd_scalar 1 y2) Hw1 (wf_radd_scalar 1 y2 Hw2) Hs)
    as (cur & Ec & Hsc & _ & Hc).
  exists cur. rewrite polyconv_to_current_eq, E1, E2. cbn [fst].
  split; [exact Ec|]. split; [exact Hsc|].
  intros idx Hv. rewrite Hc by exact Hv. f_equal.
  apply get_radd_scalar; [exact Hw2 | rewrite <- Hs; exact Hv].
Qed.

End Poly.

(** C9. The current of [PolyNeurons] on an input of shape
    [batch x features x time] is, at every batch item, output feature and
    timestep, [(fc2(x) + 1) * fc1(x)] for the two affine maps [fc1] and
    [fc2] applied to the features of that timestep, which equals
    [fc1(x) * (1 + fc2(x))]; it is computed on the input permuted to
    [batch x time x features] and permuted back before the strategy is
    called. The current of [PolyConvNeurons] is the entrywise product
    [conv_1(x) * (1 + conv_2(x))] of its two convolutions. *)
Theorem poly_current `{Methods} (self : PolyNeurons.t) (x : Tensor.t)
    (v_init : option Tensor.t) (return_type : pyval) (B I O T : nat) :
  Tensor.shape x = [B; I; T] ->
  Linear.in_features (PolyNeurons.fc1 self) = I ->
  Linear.in_features (PolyNeurons.fc2 self) = I ->
  Linear.out_features (PolyNeurons.fc1 self) = O ->
  Linear.out_features (PolyNeurons.fc2 self) = O ->
  (exists xp y1 y2 cur current,
     Tensor.permute [0; 2; 1] x = Ok xp
     /\ Linear.call (PolyNeurons.fc1 self) xp = Ok y1
     /\ Linear.call (PolyNeurons.fc2 self) xp = Ok y2
     /\ Tensor.mul (Tensor.add_scalar y2 1) y1 = Ok cur
     /\ PolyNeurons._to_current xp self = (Ok cur, self)
     /\ Tensor.permute [0; 2; 1] cur = Ok current
     /\ PolyNeurons.forward x v_init return_type self
        = (strategy_result (PolyNeurons.base self) current
             (Tensor.clamp 0 1 (p_data (BaseNeurons._beta (PolyNeurons.base self))))
             v_init return_type, self)
     /\ Tensor.shape current = [B; O; T]
     /\ forall b o t, b < B -> o < O -> t < T ->
          Tensor.get current [b; o; t]
          = Qmult (Qplus (affine (PolyNeurons.fc2 self) x b t o) 1)
                  (affine (PolyNeurons.fc1 self) x b t o)
          /\ Qeq (Tensor.get current [b; o; t])
                 (Qmult (affine (PolyNeurons.fc1 self) x b t o)
                        (Qplus 1 (affine (PolyNeurons.fc2 self) x b t o))))
  /\ (forall z,
        PolyNeurons._to_current z self
        = (a ← Linear.call (PolyNeurons.fc2 self) z;
           b ← Linear.call (PolyNeurons.fc1 self) z;
           Tensor.mul (Tensor.add_scalar a 1) b, self))
  /\ (forall (pc : PolyConvNeurons.t) z,
        PolyConvNeurons._to_current z pc
        = (a ← Conv3d.call (PolyConvNeurons.conv_1 pc) z;
           b ← Conv3d.call (PolyConvNeurons.conv_2 pc) z;
           Tensor.mul a (Tensor.radd_scalar 1 b), pc))
  /\ (forall (pc : PolyConvNeurons.t) z y1 y2,
        Conv3d.call (PolyConvNeurons.conv_1 pc) z = Ok y1 ->
        Conv3d.call (PolyConvNeurons.conv_2 pc) z = Ok y2 ->
        Tensor.shape y1 = Tensor.shape y2 ->
        exists cur,
          fst (PolyConvNeurons._to_current z pc) = Ok cur
          /\ Tensor.shape cur = Tensor.shape y1
          /\ forall idx, Tensor.valid (Tensor.shape y1) idx ->
               Tensor.get cur idx
               = Qmult (Tensor.get y1 idx) (Qplus 1 (Tensor.get y2 idx))).
Proof.
  intros Hs Hi1 Hi2 Ho1 Ho2.
  split; [|split; [intros; apply poly_to_current_eq|
           split; [intros; apply polyconv_to_current_eq|
                   intros; eapply polyconv_current_entries; eassumption]]].
  destruct (permute_swap x B I T Hs) as (xp & Exp & Hsxp & _ & Hxp).
  destruct (linear_call_entries (PolyNeurons.fc1 self) xp B T)
    as (y1 & E1 & Hs1 & Hw1 & Hy1); [congruence|].
  destruct (linear_call_entries (PolyNeurons.fc2 self) xp B T)
    as (y2 & E2 & Hs2 & Hw2 & Hy2); [congruence|].
  rewrite Ho1 in Hs1, Hy1. rewrite Ho2 in Hs2, Hy2.
  assert (Hss : Tensor.shape (Tensor.add_scalar y2 1) = Tensor.shape y1)
    by (cbn [Tensor.add_scalar Tensor.shape]; congruence).
  destruct (mul_entries (Tensor.add_scalar y2 1) y1 (wf_add_scalar y2 1 Hw2) Hw1 Hss)
    as (cur & Ec & Hsc & _ & Hc).
  rewrite Hss, Hs1 in Hsc. rewrite Hss, Hs1 in Hc.
  destruct (permute_swap cur B T O Hsc) as (current & Ep & Hsp & _ & Hp).
  assert (Htc : PolyNeurons._to_current xp self = (Ok cur, self))
    by (rewrite poly_to_current_eq, E1, E2; cbn; rewrite Ec; reflexivity).
  exists xp, y1, y2, cur, current.
  repeat (split; [assumption|]).
  split; [rewrite poly_forward_eq, Exp; cbn; rewrite Htc; cbn; rewrite Ep; reflexivity|].
  split; [exact Hsp|].
  intros b o t Hb Ho Ht.
  assert (Haff : forall l y,
             Linear.in_features l = I ->
             (forall b t o, b < B -> t < T -> o < O ->
                Tensor.get y [b; t; o]
                = Qplus
                    (Linear.sum_over (Linear.in_features l)
                       (fun i => Qmult (Tensor.get xp [b; t; i])
                                       (Tensor.get (Linear.weight l) [o; i])))
                    (Tensor.get (Linear.bias l) [o])) ->
             Tensor.get y [b; t; o] = affine l x b t o).
  { intros l y Hl Hy. rewrite Hy by assumption. unfold affine. f_equal.
    apply sum_over_ext. intros i Hlt. rewrite Hxp by (try assumption; lia).
    reflexivity. }
  assert (Hget : Tensor.get current [b; o; t]
                 = Qmult (Qplus (affine (PolyNeurons.fc2 self) x b t o) 1)
                         (affine (PolyNeurons.fc1 self) x b t o)).
  { rewrite Hp by assumption.
    rewrite Hc by (apply valid3; assumption).
    rewrite get_add_scalar by (try exact Hw2; rewrite Hs2; apply valid3; assumption).
    rewrite (Haff _ y1 Hi1 Hy1), (Haff _ y2 Hi2 Hy2). reflexivity. }
  split; [exact Hget|]. rewrite Hget. ring.
Qed.

Lemma poly_current_witness :
  exists current,
    PolyNeurons.forward (H := Reference.methods) Sample.trace None PNone
      Sample.poly_layer
    = (strategy_result (H := Reference.methods)
         (PolyNeurons.base Sample.poly_layer) current
         (Tensor.clamp 0 1
            (p_data (BaseNeurons._beta (PolyNeurons.base Sample.poly_layer))))
         None PNone, Sample.poly_layer)
    /\ Tensor.shape current = [1; 1; 2]
    /\ forall b o t, b < 1 -> o < 1 -> t < 2 ->
         Tensor.get current [b; o; t]
         = Qmult (Qplus (affine Sample.fc2 Sample.trace b t o) 1)
                 (affine Sample.fc1 Sample.trace b t o).
Proof.
  destruct (poly_current (H := Reference.methods) Sample.poly_layer Sample.trace
              None PNone 1 2 1 2)
    as ((xp & y1 & y2 & cur & current & _ & _ & _ & _ & _ & _ & Hf & Hs & Hg) & _);
    [reflexivity | reflexivity | reflexivity | reflexivity | reflexivity |].
  exists current. split; [exact Hf|]. split; [exact Hs|].
  intros b o t Hb Ho Ht. apply (Hg b o t Hb Ho Ht).
Defined.

(** * Further properties of the layers *)

(** ** Construction, method by method *)

Section MethodCases.

Variables (c : class) (t_len : Z) (beta_init : list Q) (beta_requires_grad : bool)
          (spike_func : SpikeFunc) (scale : Q) (kwargs : gmap string pyval).

Local Abbreviation obj := (fresh c t_len beta_init beta_requires_grad spike_func scale).
Local Abbreviation init :=
  (fun method => BaseNeurons.__init__ c method t_len beta_init beta_requires_grad
                   spike_func scale kwargs).

(** A method that is none of the three names yields no strategy. *)
Lemma init_unknown (method : string) :
  method <> "standard" -> method <> "fast_naive" -> method <> "fast_optimised" ->
  init method = Ok (BaseNeurons.set_method_func None (obj method)).
Proof.
  intros H1 H2 H3.
  unfold BaseNeurons.__init__, BaseNeurons._get_method_func, mbind, M_bind, st_bind,
    attr, lift, mret, M_ret, st_ret.
  cbn [BaseNeurons._method].
  apply String.eqb_neq in H1, H2, H3.
  unfold METHOD_STANDARD, METHOD_FAST_NAIVE, METHOD_FAST_OPTIMISED.
  rewrite H1, H2, H3. reflexivity.
Qed.

Lemma method_cases (method : string) :
  method = "standard" \/ method = "fast_naive" \/ method = "fast_optimised"
  \/ (method <> "standard" /\ method <> "fast_naive" /\ method <> "fast_optimised").
Proof.
  destruct (decide (method = "standard")); [tauto|].
  destruct (decide (method = "fast_naive")); [tauto|].
  destruct (decide (method = "fast_optimised")); tauto.
Qed.

End MethodCases.

(** X1. A method name other than ["standard"], ["fast_naive"] and
    ["fast_optimised"] is accepted by the constructor: [_get_method_func]
    falls through all its branches, the layer is built with no strategy,
    and every forward call on it raises [TypeError] and leaves the layer
    as it was. *)
Theorem unknown_method_fails_at_forward `{Methods}
    (c : class) (method : string) (t_len : Z) (beta_init : list Q)
    (beta_requires_grad : bool) (spike_func : SpikeFunc) (scale : Q)
    (kwargs : gmap string pyval) :
  method <> "standard" -> method <> "fast_naive" -> method <> "fast_optimised" ->
  exists self,
    BaseNeurons.__init__ c method t_len beta_init beta_requires_grad spike_func scale
      kwargs = Ok self
    /\ BaseNeurons._method_func self = None
    /\ forall x v_init return_type,
         BaseNeurons.forward x v_init return_type self = (Raise TypeError, self).
Proof.
  intros H1 H2 H3. eexists. split; [apply init_unknown; assumption|].
  split; [reflexivity|]. intros x v_init return_type.
  rewrite base_forward_eq. reflexivity.
Qed.

Lemma unknown_method_fails_at_forward_witness :
  exists self,
    BaseNeurons.__init__ CBaseNeurons "fast" 5 [9 # 10]%Q false Reference.heaviside
      100 ∅ = Ok self
    /\ BaseNeurons._method_func self = None
    /\ forall x v_init return_type,
         BaseNeurons.forward (H := Reference.methods) x v_init return_type self
         = (Raise TypeError, self).
Proof.
  apply (unknown_method_fails_at_forward (H := Reference.methods)
           CBaseNeurons "fast" 5 [9 # 10]%Q false Reference.heaviside 100 ∅);
    discriminate.
Defined.

(** X2. The constructor raises for the method ["fast_optimised"] and for
    no other: with any other method name and any other arguments it
    returns a layer, and the only exception it raises is
    [NotImplementedError]. *)
Theorem init_raises_only_for_fast_optimised
    (c : class) (method : string) (t_len : Z) (beta_init : list Q)
    (beta_requires_grad : bool) (spike_func : SpikeFunc) (scale : Q)
    (kwargs : gmap string pyval) :
  ((exists e, BaseNeurons.__init__ c method t_len beta_init beta_requires_grad
                spike_func scale kwargs = Raise e)
   <-> method = "fast_optimised")
  /\ (forall e, BaseNeurons.__init__ c method t_len beta_init beta_requires_grad
                  spike_func scale kwargs = Raise e -> e = NotImplementedError)
  /\ (method <> "fast_optimised" ->
      exists self, BaseNeurons.__init__ c method t_len beta_init beta_requires_grad
                     spike_func scale kwargs = Ok self).
Proof.
  destruct (method_cases method) as [-> | [-> | [-> | (H1 & H2 & H3)]]].
  - pose proof (init_standard c t_len beta_init beta_requires_grad spike_func scale
                  kwargs) as E.
    unfold METHOD_STANDARD in E. rewrite E.
    split; [split; [intros [e He]; discriminate | discriminate]|].
    split; [discriminate | eauto].
  - pose proof (init_fast_naive c t_len beta_init beta_requires_grad spike_func scale
                  kwargs) as E.
    unfold METHOD_FAST_NAIVE in E. rewrite E.
    split; [split; [intros [e He]; discriminate | discriminate]|].
    split; [discriminate | eauto].
  - pose proof (init_fast_optimised c t_len beta_init beta_requires_grad spike_func
                  scale kwargs) as E.
    unfold METHOD_FAST_OPTIMISED in E. rewrite E.
    split; [split; [reflexivity | eauto]|].
    split; [congruence | contradiction].
  - rewrite init_unknown by assumption.
    split; [split; [intros [e He]; discriminate | contradiction]|].
    split; [discriminate | eauto].
Qed.

Lemma map_clamp_inside (l : list Q) :
  Forall (fun b => 0 <= b <= 1)%Q l -> map (Tensor.clamp_entry 0 1) l = l.
Proof.
  induction 1 as [|b l Hb _ IH]; [reflexivity|].
  cbn [map]. rewrite (clamp_entry_inside b Hb), IH. reflexivity.
Qed.

(** X3. The constructor stores the leak initialisation as given, outside
    [0,1] too, with the requested trainability; when every initial value
    lies in [0,1] the leak read back through [beta] is the initialisation
    itself, and it is what ["fast_naive"] binds into its strategy. *)
Theorem leak_stored_unclamped
    (c : class) (method : string) (t_len : Z) (beta_init : list Q)
    (beta_requires_grad : bool) (spike_func : SpikeFunc) (scale : Q)
    (kwargs : gmap string pyval) (self : BaseNeurons.t) :
  BaseNeurons.__init__ c method t_len beta_init beta_requires_grad spike_func scale
    kwargs = Ok self ->
  p_data (BaseNeurons._beta self) = Tensor.of_list beta_init
  /\ requires_grad (BaseNeurons._beta self) = beta_requires_grad
  /\ (Forall (fun b => 0 <= b <= 1)%Q beta_init ->
      BaseNeurons.beta self = (Ok (Tensor.of_list beta_init), self)
      /\ (method = "fast_naive" ->
          BaseNeurons._method_func self
          = Some (MethodFastNaive t_len spike_func scale (Tensor.of_list beta_init)))).
Proof.
  intros Hinit.
  destruct (init_inv _ _ _ _ _ _ _ _ _ Hinit) as (f & Hf & ->).
  split; [reflexivity|]. split; [reflexivity|]. intros Hrange.
  assert (Hclamp : Tensor.clamp 0 1 (Tensor.of_list beta_init)
                   = Tensor.of_list beta_init).
  { unfold Tensor.clamp, Tensor.of_list. cbn [Tensor.shape Tensor.data].
    rewrite (map_clamp_inside _ Hrange). reflexivity. }
  split.
  - rewrite beta_eq. cbn [BaseNeurons.set_method_func BaseNeurons._beta fresh p_data].
    rewrite Hclamp. reflexivity.
  - intros ->.
    pose proof (init_fast_naive c t_len beta_init beta_requires_grad spike_func scale
                  kwargs) as E.
    unfold METHOD_FAST_NAIVE in E. rewrite E in Hinit. injection Hinit as Hinit.
    cbn [BaseNeurons.set_method_func BaseNeurons._method_func].
    rewrite <- Hinit, Hclamp. reflexivity.
Qed.

Lemma leak_stored_unclamped_witness :
  exists self,
    BaseNeurons.__init__ CBaseNeurons "standard" 5 [17 # 10]%Q true
      Reference.heaviside 100 ∅ = Ok self
    /\ p_data (BaseNeurons._beta self) = Tensor.of_list [17 # 10]%Q
    /\ requires_grad (BaseNeurons._beta self) = true.
Proof.
  eexists. split; [reflexivity|].
  pose proof (leak_stored_unclamped CBaseNeurons "standard" 5 [17 # 10]%Q true
                Reference.heaviside 100 ∅ _ eq_refl) as (Hd & Hg & _).
  split; [exact Hd | exact Hg].
Defined.

(** ** The current of [LinearNeurons] *)

Section LinearForward.
Context `{Methods}.
Import Tensor.

Lemma linear_forward_eq (self : LinearNeurons.t) x v_init return_type :
  LinearNeurons.forward x v_init return_type self
  = (current ← (xp ← permute [0; 2; 1] x;
                cur ← Linear.call (LinearNeurons._to_current self) xp;
                permute [0; 2; 1] cur);
     strategy_result (LinearNeurons.base self) current
       (clamp 0 1 (p_data (BaseNeurons._beta (LinearNeurons.base self))))
       v_init return_type,
     self).
Proof.
  unfold LinearNeurons.forward, mbind, M_bind, st_bind, attr, lift, result_bind, rbind,
    LinearNeurons.super, zoom, mret, M_ret, st_ret.
  destruct (permute [0; 2; 1] x) as [xp|e]; [|reflexivity].
  destruct (Linear.call (LinearNeurons._to_current self) xp) as [cur|e]; [|reflexivity].
  destruct (permute [0; 2; 1] cur) as [current|e]; [|reflexivity].
  rewrite base_forward_eq. destruct self.
  cbn [LinearNeurons.base LinearNeurons.set_base snd fst].
  destruct (strategy_result _ _ _ _ _); reflexivity.
Qed.

End LinearForward.

(** X4. On an input of shape [batch x n_in x time] the forward call of
    [LinearNeurons] calls the strategy on a current of shape
    [batch x n_out x time] whose entry at batch item [b], neuron [o] and
    timestep [t] is the affine image of the [n_in] input values of that
    item and timestep, and returns what the strategy returns. *)
Theorem linear_forward_current `{Methods} (self : LinearNeurons.t) (x : Tensor.t)
    (v_init : option Tensor.t) (return_type : pyval) (B T : nat) :
  Tensor.shape x = [B; Linear.in_features (LinearNeurons._to_current self); T] ->
  exists current,
    LinearNeurons.forward x v_init return_type self
    = (strategy_result (LinearNeurons.base self) current
         (Tensor.clamp 0 1 (p_data (BaseNeurons._beta (LinearNeurons.base self))))
         v_init return_type, self)
    /\ Tensor.shape current
       = [B; Linear.out_features (LinearNeurons._to_current self); T]
    /\ forall b o t,
         b < B -> o < Linear.out_features (LinearNeurons._to_current self) -> t < T ->
         Tensor.get current [b; o; t]
         = affine (LinearNeurons._to_current self) x b t o.
Proof.
  intros Hs. set (tc := LinearNeurons._to_current self) in *.
  destruct (permute_swap x _ _ _ Hs) as (xp & Exp & Hsxp & _ & Hxp).
  destruct (linear_call_entries tc xp B T Hsxp) as (y & Ey & Hsy & _ & Hy).
  destruct (permute_swap y _ _ _ Hsy) as (current & Ec & Hsc & _ & Hc).
  exists current. split; [|split; [exact Hsc|]].
  - rewrite linear_forward_eq. fold tc. rewrite Exp. cbn. rewrite Ey. cbn.
    rewrite Ec. reflexivity.
  - intros b o t Hb Ho Ht. rewrite Hc, Hy by assumption. unfold affine. f_equal.
    apply sum_over_ext. intros i Hi. rewrite Hxp by assumption. reflexivity.
Qed.

(** X5. An input that is not of shape [batch x n_in x time] makes the
    forward call of [LinearNeurons] raise [RuntimeError], in the permute
    or in the affine map, before the strategy is reached; the layer is
    left as it was. *)
Theorem linear_forward_shape_error `{Methods} (self : LinearNeurons.t) (x : Tensor.t)
    (v_init : option Tensor.t) (return_type : pyval) :
  (forall B T,
     Tensor.shape x <> [B; Linear.in_features (LinearNeurons._to_current self); T]) ->
  LinearNeurons.forward x v_init return_type self = (Raise RuntimeError, self).
Proof.
  intros Hs. rewrite linear_forward_eq.
  destruct x as [s d]. cbn [Tensor.shape] in Hs.
  destruct s as [|s0 [|s1 [|s2 [|s3 s]]]]; try reflexivity.
  unfold Tensor.permute at 2. cbn [Tensor.shape length Tensor.is_perm Nat.eqb andb
    forallb seq existsb orb map nth]. cbn [mbind result_bind rbind].
  unfold Linear.call. cbn [Tensor.shape Tensor.tabulate last].
  destruct (Nat.eqb_spec s1 (Linear.in_features (LinearNeurons._to_current self)))
    as [E|NE]; [|reflexivity].
  exfalso. apply (Hs s0 s2). rewrite E. reflexivity.
Qed.

Lemma linear_forward_current_witness :
  exists current,
    LinearNeurons.forward (H := Reference.methods) Sample.trace None PNone
      Sample2.linear_layer
    = (strategy_result (H := Reference.methods)
         (LinearNeurons.base Sample2.linear_layer) current
         (Tensor.clamp 0 1
            (p_data (BaseNeurons._beta (LinearNeurons.base Sample2.linear_layer))))
         None PNone, Sample2.linear_layer)
    /\ Tensor.shape current = [1; 1; 2].
Proof.
  destruct (linear_forward_current (H := Reference.methods) Sample2.linear_layer
              Sample.trace None PNone 1 2 eq_refl) as (current & Hf & Hs & _).
  exists current. split; [exact Hf | exact Hs].
Defined.

Lemma linear_forward_shape_error_witness :
  LinearNeurons.forward (H := Reference.methods) Sample2.wide_trace None PNone
    Sample2.linear_layer
  = (Raise RuntimeError, Sample2.linear_layer).
Proof.
  apply (linear_forward_shape_error (H := Reference.methods)).
  intros B T. discriminate.
Defined.

(** ** The convolutional layers with a flat neuron axis *)

Section ConvFlat.
Context `{Methods}.
Import Tensor.

Variables (x : Tensor.t) (v_init : option Tensor.t) (return_type : pyval).
Variables (cur flat : Tensor.t) (B N T Hh W : nat).

Hypothesis Hshape : shape cur = [B; N; T; Hh; W].
Hypothesis Hflat : (p ← permute [0; 1; 3; 4; 2] cur; flatten 1 3 p) = Ok flat.

(** The forward call of a convolutional layer up to the strategy call. *)
Lemma conv_forward_prefix (self : ConvNeurons.t) :
  Conv3d.call (ConvNeurons._to_current self) x = Ok cur ->
  ConvNeurons.forward x v_init return_type self
  = (spikes ← strategy_result (ConvNeurons.base self) flat
                (clamp 0 1 (p_data (BaseNeurons._beta (ConvNeurons.base self))))
                v_init return_type;
     if negb (truthy (ConvNeurons._flatten self)) then
       vw ← view [B; N; Hh; W; T] spikes; permute [0; 1; 4; 2; 3] vw
     else Ok spikes,
     self).
Proof.
  intros Hcall.
  destruct (permute_time_last B N T Hh W cur Hshape) as (p & Ep & _).
  rewrite Ep in Hflat. cbn in Hflat.
  unfold ConvNeurons.forward, mbind, M_bind, st_bind, attr, lift,
    ConvNeurons.super, zoom, result_bind, rbind, mret, M_ret, st_ret.
  rewrite Hcall, Hshape. cbn [unpack5]. rewrite Ep, Hflat, base_forward_eq.
  destruct self. cbn [ConvNeurons.base ConvNeurons.set_base ConvNeurons._flatten].
  destruct (strategy_result _ _ _ _ _) as [spikes|e]; [|reflexivity].
  destruct (negb (truthy _flatten)); [|reflexivity].
  destruct (view [B; N; Hh; W; T] spikes) as [vw|e]; [|reflexivity].
  destruct (permute [0; 1; 4; 2; 3] vw); reflexivity.
Qed.

Lemma polyconv_forward_prefix (self : PolyConvNeurons.t) :
  fst (PolyConvNeurons._to_current x self) = Ok cur ->
  PolyConvNeurons.forward x v_init return_type self
  = (spikes ← strategy_result (PolyConvNeurons.base self) flat
                (clamp 0 1 (p_data (BaseNeurons._beta (PolyConvNeurons.base self))))
                v_init return_type;
     if negb (truthy (PolyConvNeurons._flatten self)) then
       vw ← view [B; N; Hh; W; T] spikes; permute [0; 1; 4; 2; 3] vw
     else Ok spikes,
     self).
Proof.
  intros Hcall.
  destruct (permute_time_last B N T Hh W cur Hshape) as (p & Ep & _).
  rewrite Ep in Hflat. cbn in Hflat.
  rewrite polyconv_to_current_eq in Hcall. cbn [fst] in Hcall.
  unfold PolyConvNeurons.forward. unfold mbind at 1, M_bind at 1, st_bind at 1.
  rewrite polyconv_to_current_eq, Hcall.
  unfold mbind, M_bind, st_bind, attr, lift,
    PolyConvNeurons.super, zoom, result_bind, rbind, mret, M_ret, st_ret.
  rewrite Hshape. cbn [unpack5]. rewrite Ep, Hflat, base_forward_eq.
  destruct self.
  cbn [PolyConvNeurons.base PolyConvNeurons.set_base PolyConvNeurons._flatten].
  destruct (strategy_result _ _ _ _ _) as [spikes|e]; [|reflexivity].
  destruct (negb (truthy _flatten)); [|reflexivity].
  destruct (view [B; N; Hh; W; T] spikes) as [vw|e]; [|reflexivity].
  destruct (permute [0; 1; 4; 2; 3] vw); reflexivity.
Qed.

End ConvFlat.

(** X6. With the [flatten] option on, the forward call of [ConvNeurons]
    and of [PolyConvNeurons] returns the strategy's result on the
    flattened current as it is, value or exception, with no view or
    permute after it. *)
Theorem conv_forward_flattened `{Methods}
    (x : Tensor.t) (v_init : option Tensor.t) (return_type : pyval)
    (cur flat : Tensor.t) (B N T Hh W : nat) :
  Tensor.shape cur = [B; N; T; Hh; W] ->
  (p ← Tensor.permute [0; 1; 3; 4; 2] cur; Tensor.flatten 1 3 p) = Ok flat ->
  (forall self : ConvNeurons.t,
     truthy (ConvNeurons._flatten self) = true ->
     Conv3d.call (ConvNeurons._to_current self) x = Ok cur ->
     ConvNeurons.forward x v_init return_type self
     = (strategy_result (ConvNeurons.base self) flat
          (Tensor.clamp 0 1 (p_data (BaseNeurons._beta (ConvNeurons.base self))))
          v_init return_type, self))
  /\ (forall self : PolyConvNeurons.t,
        truthy (PolyConvNeurons._flatten self) = true ->
        fst (PolyConvNeurons._to_current x self) = Ok cur ->
        PolyConvNeurons.forward x v_init return_type self
        = (strategy_result (PolyConvNeurons.base self) flat
             (Tensor.clamp 0 1
                (p_data (BaseNeurons._beta (PolyConvNeurons.base self))))
             v_init return_type, self)).
Proof.
  intros Hshape Hflat. split; intros self Hflag Hcall.
  - rewrite (conv_forward_prefix x v_init return_type cur flat B N T Hh W
               Hshape Hflat self Hcall), Hflag.
    cbn [negb]. destruct (strategy_result _ _ _ _ _); reflexivity.
  - rewrite (polyconv_forward_prefix x v_init return_type cur flat B N T Hh W
               Hshape Hflat self Hcall), Hflag.
    cbn [negb]. destruct (strategy_result _ _ _ _ _); reflexivity.
Qed.

Lemma conv_forward_flattened_witness :
  ConvNeurons.forward (H := Reference.methods) Sample.image None PNone
    Sample2.flat_conv_layer
  = (Ok Sample.spikes, Sample2.flat_conv_layer).
Proof.
  destruct (conv_forward_flattened (H := Reference.methods) Sample.image None PNone
              Sample.current Sample.flat 1 1 2 2 2 eq_refl eq_refl) as (Hconv & _).
  rewrite (Hconv Sample2.flat_conv_layer eq_refl eq_refl). reflexivity.
Defined.

(** X7. With the [flatten] option off, a strategy result whose number of
    entries is not that of the current makes the forward call of
    [ConvNeurons] and of [PolyConvNeurons] raise [RuntimeError], in the
    view; the layer is left as it was. *)
Theorem conv_forward_rejects_other_size `{Methods}
    (x : Tensor.t) (v_init : option Tensor.t) (return_type : pyval)
    (cur flat out : Tensor.t) (B N T Hh W : nat) :
  Tensor.shape cur = [B; N; T; Hh; W] ->
  (p ← Tensor.permute [0; 1; 3; 4; 2] cur; Tensor.flatten 1 3 p) = Ok flat ->
  Tensor.numel (Tensor.shape out) <> B * N * Hh * W * T ->
  (forall self : ConvNeurons.t,
     truthy (ConvNeurons._flatten self) = false ->
     Conv3d.call (ConvNeurons._to_current self) x = Ok cur ->
     strategy_result (ConvNeurons.base self) flat
       (Tensor.clamp 0 1 (p_data (BaseNeurons._beta (ConvNeurons.base self))))
       v_init return_type = Ok out ->
     ConvNeurons.forward x v_init return_type self = (Raise RuntimeError, self))
  /\ (forall self : PolyConvNeurons.t,
        truthy (PolyConvNeurons._flatten self) = false ->
        fst (PolyConvNeurons._to_current x self) = Ok cur ->
        strategy_result (PolyConvNeurons.base self) flat
          (Tensor.clamp 0 1 (p_data (BaseNeurons._beta (PolyConvNeurons.base self))))
          v_init return_type = Ok out ->
        PolyConvNeurons.forward x v_init return_type self
        = (Raise RuntimeError, self)).
Proof.
  intros Hshape Hflat Hsize.
  assert (Hview : Tensor.view [B; N; Hh; W; T] out = Raise RuntimeError).
  { unfold Tensor.view.
    destruct (Nat.eqb_spec (Tensor.numel [B; N; Hh; W; T])
                (Tensor.numel (Tensor.shape out))) as [E|NE]; [|reflexivity].
    exfalso. apply Hsize. rewrite <- E. cbn. ring. }
  split; intros self Hflag Hcall Hrun.
  - rewrite (conv_forward_prefix x v_init return_type cur flat B N T Hh W
               Hshape Hflat self Hcall), Hflag, Hrun.
    cbn [negb mbind result_bind rbind]. rewrite Hview. reflexivity.
  - rewrite (polyconv_forward_prefix x v_init return_type cur flat B N T Hh W
               Hshape Hflat self Hcall), Hflag, Hrun.
    cbn [negb mbind result_bind rbind]. rewrite Hview. reflexivity.
Qed.

Lemma conv_forward_rejects_other_size_witness :
  ConvNeurons.forward (H := Sample2.summary_methods) Sample.image None PNone
    Sample.conv_layer
  = (Raise RuntimeError, Sample.conv_layer).
Proof.
  destruct (conv_forward_rejects_other_size (H := Sample2.summary_methods)
              Sample.image None PNone Sample.current Sample.flat
              (Tensor.mk [1] [0%Q]) 1 1 2 2 2 eq_refl eq_refl) as (Hconv & _).
  - cbn. lia.
  - apply (Hconv Sample.conv_layer); reflexivity.
Defined.

(** ** The polynomial layer against the linear one *)

Section PolyLinear.
Context `{Methods}.

Lemma sum_over_zero (n : nat) (f : nat -> Q) :
  (forall i, i < n -> Qeq (f i) 0) -> Qeq (Linear.sum_over n f) 0.
Proof.
  unfold Linear.sum_over. intros Hf.
  assert (Hin : forall i, In i (seq 0 n) -> Qeq (f i) 0)
    by (intros i Hi; apply in_seq in Hi; apply Hf; lia).
  clear Hf. induction (seq 0 n) as [|i l IH]; [reflexivity|].
  cbn [map fold_right]. rewrite (Hin i) by (left; reflexivity).
  rewrite IH by (intros j Hj; apply Hin; right; exact Hj). reflexivity.
Qed.

(** The current [PolyNeurons.forward] hands to the strategy, entry by
    entry. *)
Lemma poly_forward_current (self : PolyNeurons.t) (x : Tensor.t)
    (v_init : option Tensor.t) (return_type : pyval) (B I O T : nat) :
  Tensor.shape x = [B; I; T] ->
  Linear.in_features (PolyNeurons.fc1 self) = I ->
  Linear.in_features (PolyNeurons.fc2 self) = I ->
  Linear.out_features (PolyNeurons.fc1 self) = O ->
  Linear.out_features (PolyNeurons.fc2 self) = O ->
  exists current,
    PolyNeurons.forward x v_init return_type self
    = (strategy_result (PolyNeurons.base self) current
         (Tensor.clamp 0 1 (p_data (BaseNeurons._beta (PolyNeurons.base self))))
         v_init return_type, self)
    /\ Tensor.shape current = [B; O; T]
    /\ forall b o t, b < B -> o < O -> t < T ->
         Tensor.get current [b; o; t]
         = Qmult (Qplus (affine (PolyNeurons.fc2 self) x b t o) 1)
                 (affine (PolyNeurons.fc1 self) x b t o).
Proof.
  intros Hs Hi1 Hi2 Ho1 Ho2.
  destruct (permute_swap x B I T Hs) as (xp & Exp & Hsxp & _ & Hxp).
  destruct (linear_call_entries (PolyNeurons.fc1 self) xp B T)
    as (y1 & E1 & Hs1 & Hw1 & Hy1); [congruence|].
  destruct (linear_call_entries (PolyNeurons.fc2 self) xp B T)
    as (y2 & E2 & Hs2 & Hw2 & Hy2); [congruence|].
  rewrite Ho1 in Hs1, Hy1. rewrite Ho2 in Hs2, Hy2.
  assert (Hss : Tensor.shape (Tensor.add_scalar y2 1) = Tensor.shape y1)
    by (cbn [Tensor.add_scalar Tensor.shape]; congruence).
  destruct (mul_entries (Tensor.add_scalar y2 1) y1 (wf_add_scalar y2 1 Hw2) Hw1 Hss)
    as (cur & Ec & Hsc & _ & Hc).
  rewrite Hss, Hs1 in Hsc. rewrite Hss, Hs1 in Hc.
  destruct (permute_swap cur B T O Hsc) as (current & Ep & Hsp & _ & Hp).
  exists current. split; [|split; [exact Hsp|]].
  - rewrite poly_forward_eq, Exp. cbn. rewrite poly_to_current_eq, E1, E2. cbn.
    rewrite Ec. cbn. rewrite Ep. reflexivity.
  - intros b o t Hb Ho Ht. rewrite Hp by assumption.
    rewrite Hc by (apply valid3; assumption).
    rewrite get_add_scalar by (try exact Hw2; rewrite Hs2; apply valid3; assumption).
    rewrite Hy1, Hy2 by assumption. unfold affine. rewrite Hi1, Hi2.
    f_equal; [f_equal|]; f_equal; apply sum_over_ext; intros i Hlt;
      rewrite Hxp by assumption; reflexivity.
Qed.

End PolyLinear.

(** X8. A polynomial layer whose second affine map is zero, weights and
    biases, computes the current of the linear layer with its first map:
    at every batch item, neuron and timestep the current handed to the
    strategy equals [fc1(x)]. *)
Theorem poly_with_zero_fc2_is_linear `{Methods} (self : PolyNeurons.t) (x : Tensor.t)
    (v_init : option Tensor.t) (return_type : pyval) (B I O T : nat) :
  Tensor.shape x = [B; I; T] ->
  Linear.in_features (PolyNeurons.fc1 self) = I ->
  Linear.in_features (PolyNeurons.fc2 self) = I ->
  Linear.out_features (PolyNeurons.fc1 self) = O ->
  Linear.out_features (PolyNeurons.fc2 self) = O ->
  (forall o i, o < O -> i < I ->
     Qeq (Tensor.get (Linear.weight (PolyNeurons.fc2 self)) [o; i]) 0) ->
  (forall o, o < O -> Qeq (Tensor.get (Linear.bias (PolyNeurons.fc2 self)) [o]) 0) ->
  exists current,
    PolyNeurons.forward x v_init return_type self
    = (strategy_result (PolyNeurons.base self) current
         (Tensor.clamp 0 1 (p_data (BaseNeurons._beta (PolyNeurons.base self))))
         v_init return_type, self)
    /\ Tensor.shape current = [B; O; T]
    /\ forall b o t, b < B -> o < O -> t < T ->
         Qeq (Tensor.get current [b; o; t]) (affine (PolyNeurons.fc1 self) x b t o).
Proof.
  intros Hs Hi1 Hi2 Ho1 Ho2 Hw Hb.
  destruct (poly_forward_current self x v_init return_type B I O T Hs Hi1 Hi2 Ho1 Ho2)
    as (current & Hf & Hsc & Hg).
  exists current. split; [exact Hf|]. split; [exact Hsc|].
  intros b o t Hlb Hlo Hlt. rewrite (Hg b o t Hlb Hlo Hlt).
  assert (Hz : Qeq (affine (PolyNeurons.fc2 self) x b t o) 0).
  { unfold affine. rewrite (Hb o Hlo), Hi2.
    rewrite sum_over_zero; [reflexivity|].
    intros i Hi. rewrite (Hw o i Hlo Hi). ring. }
  rewrite Hz. ring.
Qed.

Lemma poly_with_zero_fc2_is_linear_witness :
  exists current,
    PolyNeurons.forward (H := Reference.methods) Sample.trace None PNone
      Sample2.poly_layer_zero
    = (strategy_result (H := Reference.methods)
         (PolyNeurons.base Sample2.poly_layer_zero) current
         (Tensor.clamp 0 1
            (p_data (BaseNeurons._beta (PolyNeurons.base Sample2.poly_layer_zero))))
         None PNone, Sample2.poly_layer_zero)
    /\ forall b o t, b < 1 -> o < 1 -> t < 2 ->
         Qeq (Tensor.get current [b; o; t]) (affine Sample.fc1 Sample.trace b t o).
Proof.
  destruct (poly_with_zero_fc2_is_linear (H := Reference.methods)
              Sample2.poly_layer_zero Sample.trace None PNone 1 2 1 2
              eq_refl eq_refl eq_refl eq_refl eq_refl)
    as (current & Hf & _ & Hg).
  - intros o i Ho Hi.
    destruct o as [|o]; [|lia]. destruct i as [|[|i]]; [reflexivity | reflexivity | lia].
  - intros o Ho. destruct o as [|o]; [reflexivity | lia].
  - exists current. split; [exact Hf | exact Hg].
Defined.

Lemma linear_call_cases (l : Linear.t) (xp : Tensor.t) (s0 s1 s2 : nat) :
  Tensor.shape xp = [s0; s1; s2] ->
  (s2 = Linear.in_features l /\ exists y, Linear.call l xp = Ok y)
  \/ (s2 <> Linear.in_features l /\ Linear.call l xp = Raise RuntimeError).
Proof.
  intros Hs. unfold Linear.call. rewrite Hs. cbn [last].
  destruct (Nat.eqb_spec s2 (Linear.in_features l)); [left | right]; eauto.
Qed.

(** X9. An input that is not of shape [batch x n_in x time], for the
    input size [n_in] of either affine map, makes the forward call of
    [PolyNeurons] raise [RuntimeError] before the strategy is reached;
    the layer is left as it was. *)
Theorem poly_forward_shape_error `{Methods} (self : PolyNeurons.t) (x : Tensor.t)
    (v_init : option Tensor.t) (return_type : pyval) :
  (forall B T,
     Tensor.shape x <> [B; Linear.in_features (PolyNeurons.fc1 self); T]
     \/ Tensor.shape x <> [B; Linear.in_features (PolyNeurons.fc2 self); T]) ->
  PolyNeurons.forward x v_init return_type self = (Raise RuntimeError, self).
Proof.
  intros Hs. rewrite poly_forward_eq.
  destruct x as [s d]. cbn [Tensor.shape] in Hs.
  destruct s as [|s0 [|s1 [|s2 [|s3 s]]]]; try reflexivity.
  destruct (permute_swap (Tensor.mk [s0; s1; s2] d) s0 s1 s2 eq_refl)
    as (xp & Exp & Hsxp & _).
  rewrite Exp. cbn [mbind result_bind rbind]. rewrite poly_to_current_eq. cbn [fst].
  destruct (linear_call_cases (PolyNeurons.fc2 self) xp _ _ _ Hsxp)
    as [(E2 & y2 & ->) | (_ & ->)]; [|reflexivity].
  cbn [mbind result_bind rbind].
  destruct (linear_call_cases (PolyNeurons.fc1 self) xp _ _ _ Hsxp)
    as [(E1 & _) | (_ & ->)]; [|reflexivity].
  exfalso. destruct (Hs s0 s2) as [Hne | Hne]; apply Hne; congruence.
Qed.

Lemma poly_forward_shape_error_witness :
  PolyNeurons.forward (H := Reference.methods) Sample2.wide_trace None PNone
    Sample.poly_layer
  = (Raise RuntimeError, Sample.poly_layer).
Proof.
  apply (poly_forward_shape_error (H := Reference.methods)).
  intros B T. left. discriminate.
Defined.

(** ** What the snapshot does not tell *)

(** X10. The snapshot of a layer does not depend on the scale, on the
    keyword arguments (single-spike, integrator, recurrent) or on which
    spike function was given beyond the name of its class: two layers
    constructed alike in the other arguments have the same snapshot. *)
Theorem hyperparams_blind_to_scale_and_kwargs
    (super_hyperparams : gmap string pyval)
    (c : class) (method : string) (t_len : Z) (beta_init : list Q)
    (beta_requires_grad : bool) (spike_func spike_func' : SpikeFunc) (scale scale' : Q)
    (kwargs kwargs' : gmap string pyval) (a b : BaseNeurons.t) :
  BaseNeurons.__init__ c method t_len beta_init beta_requires_grad spike_func scale
    kwargs = Ok a ->
  BaseNeurons.__init__ c method t_len beta_init beta_requires_grad spike_func' scale'
    kwargs' = Ok b ->
  sf_class_name spike_func = sf_class_name spike_func' ->
  fst (BaseNeurons.hyperparams super_hyperparams a)
  = fst (BaseNeurons.hyperparams super_hyperparams b).
Proof.
  intros Ha Hb Hname.
  destruct (init_inv _ _ _ _ _ _ _ _ _ Ha) as (fa & _ & ->).
  destruct (init_inv _ _ _ _ _ _ _ _ _ Hb) as (fb & _ & ->).
  cbv [BaseNeurons.hyperparams mbind M_bind st_bind attr mret M_ret st_ret fst
       BaseNeurons.set_method_func fresh BaseNeurons._method BaseNeurons._t_len
       BaseNeurons._beta_init BaseNeurons._beta_requires_grad
       BaseNeurons._spike_func].
  rewrite Hname. reflexivity.
Qed.

Lemma hyperparams_blind_to_scale_and_kwargs_witness :
  exists a b,
    BaseNeurons.__init__ CBaseNeurons "standard" 5 [9 # 10]%Q false
      Reference.heaviside 10 ∅ = Ok a
    /\ BaseNeurons.__init__ CBaseNeurons "standard" 5 [9 # 10]%Q false
         Sample2.silent 100 {["integrator" := PBool true]} = Ok b
    /\ BaseNeurons._method_func a <> BaseNeurons._method_func b
    /\ fst (BaseNeurons.hyperparams ∅ a) = fst (BaseNeurons.hyperparams ∅ b).
Proof.
  eexists _, _. split; [reflexivity|]. split; [reflexivity|].
  split; [discriminate|].
  apply (hyperparams_blind_to_scale_and_kwargs ∅ CBaseNeurons "standard" 5
           [9 # 10]%Q false Reference.heaviside Sample2.silent 10 100 ∅
           {["integrator" := PBool true]}); reflexivity.
Defined.

(** * Properties of the training script *)

Section TrainFacts.
Import Train.

Variable literal_eval : pyval -> option pyval.

Lemma eval_some (v r : pyval) : literal_eval v = Some r -> eval literal_eval v = Return r.
Proof. unfold eval. intros ->. reflexivity. Qed.

Ltac by_name args :=
  destruct (is_str (dataset args) "yinyang") eqn:?;
  [|destruct (is_str (dataset args) "mnist") eqn:?;
    [|destruct (is_str (dataset args) "fmnist") eqn:?;
      [|destruct (is_str (dataset args) "nmnist") eqn:?;
        [|destruct (is_str (dataset args) "shd") eqn:?]]]].

(** X11. When its two flags are readable literals, [get_dataset] returns
    a training set exactly for the five dataset names it knows; for any
    other name, a missing one too, it raises [UnboundLocalError] on the
    variable [dataset]. A validation set comes with every training set
    but that of ["yinyang"], for which it is [None]. *)
Theorem get_dataset_by_name (base_path : pyval) (args : Namespace) :
  is_Some (literal_eval (load_spatial_dims args)) ->
  is_Some (literal_eval (use_augmentation args)) ->
  (known (dataset args) = false ->
   get_dataset literal_eval base_path args = UnboundLocalError "dataset")
  /\ (known (dataset args) = true ->
      exists ds vds,
        get_dataset literal_eval base_path args = Return (ds, vds)
        /\ (vds = Val PNone <-> is_str (dataset args) "yinyang" = true)).
Proof.
  intros [l Hl] [u Hu]. unfold get_dataset, known.
  rewrite (eval_some _ _ Hl), (eval_some _ _ Hu). cbn [mbind outcome_bind].
  by_name args; cbn [orb read_local mbind outcome_bind mret outcome_ret];
    (split; [intros; try discriminate; try reflexivity|]);
    intros; try discriminate; eexists _, _; (split; [reflexivity|]);
    split; intros; try discriminate; try reflexivity.
Qed.

(** X12. When its six flags are readable literals, [get_model] returns a
    model exactly for the five dataset names it knows, and then with
    milestones other than the initial [[-1]]; for any other name it
    raises [UnboundLocalError] on the variable [model]. Only for
    ["yinyang"] are the first layer's weights drawn again. *)
Theorem get_model_by_name (t_len : pyval) (args : Namespace) :
  is_Some (literal_eval (load_spatial_dims args)) ->
  is_Some (literal_eval (single_spike args)) ->
  is_Some (literal_eval (beta_requires_grad args)) ->
  is_Some (literal_eval (readout_max args)) ->
  is_Some (literal_eval (recurrent args)) ->
  is_Some (literal_eval (detach_recurrent_spikes args)) ->
  (known (dataset args) = false ->
   get_model literal_eval t_len args = UnboundLocalError "model")
  /\ (known (dataset args) = true ->
      exists m,
        get_model literal_eval t_len args = Return m
        /\ milestones m <> [-1]%Z
        /\ (is_Some (first_layer_uniform m) <-> is_str (dataset args) "yinyang" = true)).
Proof.
  intros [l Hl] [s Hs] [b Hb] [r Hr] [rc Hrc] [dt Hdt]. unfold get_model, known.
  rewrite (eval_some _ _ Hl), (eval_some _ _ Hs), (eval_some _ _ Hb),
    (eval_some _ _ Hr), (eval_some _ _ Hrc), (eval_some _ _ Hdt).
  cbn [mbind outcome_bind].
  by_name args; try destruct (truthy l); try destruct (is_zero (d args));
    cbn [orb read_local mbind outcome_bind mret outcome_ret];
    (split; [intros; try discriminate; try reflexivity|]);
    intros; try discriminate; eexists; (split; [reflexivity|]);
    cbn [milestones first_layer_uniform];
    (split; [discriminate|]);
    split; intros; try discriminate; try reflexivity; eauto;
    match goal with Hx : is_Some None |- _ => destruct Hx; discriminate end.
Qed.

(** X13. The validation set does not depend on the augmentation flag:
    with any other readable value of the flag, [get_dataset] returns the
    same validation set. *)
Theorem validation_set_never_augmented (base_path : pyval) (args : Namespace)
    (ds vds : obj) (flag : pyval) :
  get_dataset literal_eval base_path args = Return (ds, vds) ->
  is_Some (literal_eval flag) ->
  exists ds',
    get_dataset literal_eval base_path (with_use_augmentation flag args)
    = Return (ds', vds).
Proof.
  unfold get_dataset, eval. intros Hret [u' Hu'].
  cbn [with_use_augmentation load_spatial_dims use_augmentation dataset Train.t_len].
  rewrite Hu'.
  destruct (literal_eval (load_spatial_dims args)) as [l|]; [|discriminate].
  destruct (literal_eval (use_augmentation args)) as [u|]; [|discriminate].
  cbn [mbind outcome_bind] in *.
  by_name args; cbn [read_local mbind outcome_bind mret outcome_ret] in *;
    try discriminate; injection Hret as <- <-; eexists; reflexivity.
Qed.

(** X14. The recurrence flags reach the model only for ["shd"] with a
    non-zero [d]: in every other case [get_model] returns the same
    result for any other readable values of [recurrent] and
    [detach_recurrent_spikes]. *)
Theorem recurrence_flags_only_for_shd_d (t_len : pyval) (args : Namespace)
    (m : Built) (r dt : pyval) :
  get_model literal_eval t_len args = Return m ->
  is_Some (literal_eval r) ->
  is_Some (literal_eval dt) ->
  is_str (dataset args) "shd" = false \/ is_zero (d args) = true ->
  get_model literal_eval t_len (with_recurrence r dt args) = Return m.
Proof.
  unfold get_model, eval. intros Hret [r' Hr'] [dt' Hdt'] Hcase.
  cbn [with_recurrence load_spatial_dims single_spike beta_requires_grad readout_max
       recurrent detach_recurrent_spikes dataset d n_layers method].
  rewrite Hr', Hdt'.
  destruct (literal_eval (load_spatial_dims args)) as [l|]; [|discriminate].
  destruct (literal_eval (single_spike args)) as [s|]; [|discriminate].
  destruct (literal_eval (beta_requires_grad args)) as [b|]; [|discriminate].
  destruct (literal_eval (readout_max args)) as [ro|]; [|discriminate].
  destruct (literal_eval (recurrent args)) as [rc|]; [|discriminate].
  destruct (literal_eval (detach_recurrent_spikes args)) as [d0|]; [|discriminate].
  cbn [mbind outcome_bind] in *.
  by_name args; try exact Hret.
  destruct Hcase as [Hc | Hc]; [discriminate|]. rewrite Hc in *. exact Hret.
Qed.

End TrainFacts.

Lemma get_dataset_by_name_witness :
  Train.get_dataset Train.bool_literal (PStr "/run") Train.sample_args_cifar
  = Train.UnboundLocalError "dataset".
Proof.
  apply (get_dataset_by_name Train.bool_literal (PStr "/run") Train.sample_args_cifar);
    [eexists; reflexivity | eexists; reflexivity | reflexivity].
Defined.

Lemma get_model_by_name_witness :
  Train.get_model Train.bool_literal (PInt 8) Train.sample_args_cifar
  = Train.UnboundLocalError "model".
Proof.
  apply (get_model_by_name Train.bool_literal (PInt 8) Train.sample_args_cifar);
    try (eexists; reflexivity); reflexivity.
Defined.

Lemma validation_set_never_augmented_witness :
  exists ds ds' vds,
    Train.get_dataset Train.bool_literal (PStr "/run") Train.sample_args
    = Train.Return (ds, vds)
    /\ Train.get_dataset Train.bool_literal (PStr "/run")
         (Train.with_use_augmentation (PStr "False") Train.sample_args)
       = Train.Return (ds', vds)
    /\ ds <> ds'.
Proof.
  destruct (validation_set_never_augmented Train.bool_literal (PStr "/run")
              Train.sample_args _ _ (PStr "False") eq_refl) as (ds' & Hds');
    [eexists; reflexivity|].
  eexists _, ds', _. split; [reflexivity|]. split; [exact Hds'|].
  vm_compute in Hds'. injection Hds' as <-. discriminate.
Defined.

Lemma recurrence_flags_only_for_shd_d_witness :
  exists m,
    Train.get_model Train.bool_literal (PInt 8) Train.sample_args = Train.Return m
    /\ Train.get_model Train.bool_literal (PInt 8)
         (Train.with_recurrence (PStr "False") (PStr "False") Train.sample_args)
       = Train.Return m.
Proof.
  eexists. split; [reflexivity|].
  apply (recurrence_flags_only_for_shd_d Train.bool_literal (PInt 8) Train.sample_args);
    [reflexivity | eexists; reflexivity | eexists; reflexivity | left; reflexivity].
Defined.

(** * The weight initialisation in the constructors *)

Lemma init_ok_unless_fast_optimised
    (c : class) (method : string) (t_len : Z) (beta_init : list Q)
    (beta_requires_grad : bool) (spike_func : SpikeFunc) (scale : Q)
    (kwargs : gmap string pyval) :
  method <> "fast_optimised" ->
  exists b, BaseNeurons.__init__ c method t_len beta_init beta_requires_grad
              spike_func scale kwargs = Ok b.
Proof.
  intros Hm.
  destruct (method_cases method) as [-> | [-> | [-> | (H1 & H2 & H3)]]].
  - eexists. apply init_standard.
  - eexists. apply init_fast_naive.
  - contradiction.
  - eexists. apply init_unknown; assumption.
Qed.


